(** * db-async: the promise layer over the sqlite3 callback driver

    A shallow embedding of [src/sqlite/index.ts] (classes [Database] and
    [Statement]) together with the properties of its specification.

    The driver is opaque: it is an oracle that, for a call and the history
    of earlier calls, gives the invocations of the callback it was handed.
    Asynchrony is sequentialised: one chain of operations runs against one
    handle, so an operation is a function from the world before it to the
    settlement of its promise and the world after it. *)

From Stdlib Require Import ZArith List String Ascii Bool Lia.
From Stdlib Require Import Numbers.DecimalString.
From Stdlib Require Numbers.DecimalPos.
Import ListNotations.

Set Warnings "-register-all".

Open Scope string_scope.
Open Scope Z_scope.

(* ================================================================== *)
(** ** JavaScript values *)
(* ================================================================== *)

Module JS.

(** A JavaScript number, as far as the wrapper computes with it: NaN, the
    two infinities, negative zero and the integers.  Integers are exact
    (the doubles of the source are, up to 2^53).  The only fractions the
    wrapper makes are quotients it rounds up at once with [Math.ceil]; a
    fraction handed in by the driver has no value here. *)
Inductive JSNum : Type :=
| JNaN
| JInf (negative : bool)
| JNegZero
| JInt (z : Z).

Inductive ErrKind : Type :=
| KError        (* new Error(msg) *)
| KTypeError    (* new TypeError(msg) *)
| KDriver.      (* an error object made by the driver *)

(** Values that cross the wrapper: arguments, callback arguments,
    resolution values and rejection reasons. *)
Inductive JSVal : Type :=
| VUndefined
| VNull
| VBool (b : bool)
| VNum (n : JSNum)
| VStr (s : string)
| VFun (id : nat)
| VErr (k : ErrKind) (msg : string)
| VObj (fields : list (string * JSVal))
| VArr (items : list JSVal)
| VDatabase                 (* the Database handle, [this] *)
| VStatement (stmt : nat).  (* a Statement wrapping driver statement [stmt] *)

(** [if (v)] *)
Definition truthy (v : JSVal) : bool :=
  match v with
  | VUndefined | VNull => false
  | VBool b => b
  | VNum JNaN | VNum JNegZero => false
  | VNum (JInt z) => negb (z =? 0)
  | VNum (JInf _) => true
  | VStr s => negb (String.eqb s "")
  | _ => true
  end.

(** [typeof v] *)
Definition typeof (v : JSVal) : string :=
  match v with
  | VUndefined => "undefined"
  | VBool _ => "boolean"
  | VNum _ => "number"
  | VStr _ => "string"
  | VFun _ => "function"
  | _ => "object"
  end.

(** [a || b] *)
Definition js_or (a b : JSVal) : JSVal := if truthy a then a else b.

(** Property read [o.k]: a TypeError on [undefined] and [null], the field
    of an object literal, [undefined] where there is no such field. *)
Inductive Completion (A : Type) : Type :=
| Returned (a : A)
| Threw (reason : JSVal).
Arguments Returned {A} a.
Arguments Threw {A} reason.

Fixpoint lookup_field (k : string) (fs : list (string * JSVal)) : JSVal :=
  match fs with
  | [] => VUndefined
  | (k', v) :: rest => if String.eqb k k' then v else lookup_field k rest
  end.

Definition get_prop (o : JSVal) (k : string) : Completion JSVal :=
  match o with
  | VUndefined =>
      Threw (VErr KTypeError
        ("Cannot read properties of undefined (reading '" ++ k ++ "')"))
  | VNull =>
      Threw (VErr KTypeError
        ("Cannot read properties of null (reading '" ++ k ++ "')"))
  | VObj fs => Returned (lookup_field k fs)
  | _ => Returned VUndefined
  end.

(** [o.k = v] on an object literal: overwrite in place, else append. *)
Fixpoint set_field (k : string) (v : JSVal) (fs : list (string * JSVal))
  : list (string * JSVal) :=
  match fs with
  | [] => [(k, v)]
  | (k', v') :: rest =>
      if String.eqb k k' then (k', v) :: rest
      else (k', v') :: set_field k v rest
  end.

(* ------------------------------------------------------------------ *)
(** *** Numbers *)

Definition is_negative (n : JSNum) : bool :=
  match n with
  | JNaN => false
  | JInf s => s
  | JNegZero => true
  | JInt z => z <? 0
  end.

Definition signed_zero (negative : bool) : JSNum :=
  if negative then JNegZero else JInt 0.

Definition is_zero (n : JSNum) : bool :=
  match n with
  | JNegZero => true
  | JInt z => z =? 0
  | _ => false
  end.

Definition int_of (n : JSNum) : Z :=
  match n with JInt z => z | _ => 0 end.

(** [a - b] for the only subtraction of the source, [page - 1]. *)
Definition js_sub (a b : JSNum) : JSNum :=
  match a, b with
  | JNaN, _ | _, JNaN => JNaN
  | JInf s, JInf t => if Bool.eqb s t then JNaN else JInf s
  | JInf s, _ => JInf s
  | _, JInf t => JInf (negb t)
  | JNegZero, JInt 0 => JNegZero
  | _, _ => JInt (int_of a - int_of b)
  end.

(** [a * b] *)
Definition js_mul (a b : JSNum) : JSNum :=
  let neg := xorb (is_negative a) (is_negative b) in
  match a, b with
  | JNaN, _ | _, JNaN => JNaN
  | JInf _, _ => if is_zero b then JNaN else JInf neg
  | _, JInf _ => if is_zero a then JNaN else JInf neg
  | _, _ =>
      if is_zero a || is_zero b then signed_zero neg
      else JInt (int_of a * int_of b)
  end.

(** [Math.ceil(a / b)].  For integers with [b <> 0] the quotient rounded
    up; a quotient in (-1, 0) rounds to negative zero. *)
Definition js_ceil_div (a b : JSNum) : JSNum :=
  let neg := xorb (is_negative a) (is_negative b) in
  match a, b with
  | JNaN, _ | _, JNaN => JNaN
  | JInf _, JInf _ => JNaN
  | JInf _, _ => JInf neg
  | _, JInf _ => signed_zero neg
  | _, _ =>
      if is_zero b then (if is_zero a then JNaN else JInf neg)
      else if is_zero a then signed_zero neg
      else
        let q := - ((- int_of a) / int_of b) in
        if q =? 0 then JNegZero else JInt q
  end.

(** [String(n)], as a template literal prints it (decimal digits; the
    exponent form of numbers from 1e21 on is beyond the exact range). *)
Definition num_to_string (n : JSNum) : string :=
  match n with
  | JNaN => "NaN"
  | JInf false => "Infinity"
  | JInf true => "-Infinity"
  | JNegZero => "0"
  | JInt z => NilZero.string_of_int (Z.to_int z)
  end.

(* ------------------------------------------------------------------ *)
(** *** parseInt(s, 10) *)

(** Leading white space is skipped (the ASCII white space; a string is a
    sequence of bytes here), then an optional sign, then decimal digits
    up to the first other character. *)

Definition is_space (c : ascii) : bool :=
  let n := nat_of_ascii c in
  ((9 <=? n) && (n <=? 13) || (n =? 32))%nat.

Fixpoint skip_spaces (s : string) : string :=
  match s with
  | String c rest => if is_space c then skip_spaces rest else s
  | EmptyString => s
  end.

Definition digit_of (c : ascii) : option Z :=
  let n := nat_of_ascii c in
  if ((48 <=? n) && (n <=? 57))%nat then Some (Z.of_nat n - 48) else None.

(** The longest prefix of decimal digits, accumulated; [None] when the
    string does not start with a digit. *)
Fixpoint read_digits (s : string) (acc : option Z) : option Z :=
  match s with
  | String c rest =>
      match digit_of c with
      | Some d =>
          read_digits rest
            (Some (10 * match acc with Some a => a | None => 0 end + d))
      | None => acc
      end
  | EmptyString => acc
  end.

Definition parseInt10 (s : string) : JSNum :=
  let s := skip_spaces s in
  let '(negative, body) :=
    match s with
    | String "-" rest => (true, rest)
    | String "+" rest => (false, rest)
    | _ => (false, s)
    end in
  match read_digits body None with
  | None => JNaN
  | Some m => if negative then (if m =? 0 then JNegZero else JInt (- m))
              else JInt m
  end.

End JS.

Import JS.

(* ================================================================== *)
(** ** The driver (module [sqlite3]) *)
(* ================================================================== *)

Module Sqlite3.

(** Driver objects are known by the position, in the history of driver
    calls, of the call that made them. *)
Definition Conn := nat.
Definition StmtRef := nat.

(** One call into the driver.  The callback the wrapper appends is not
    part of [args]: the wrapper always passes its own. *)
Inductive DriverCall : Type :=
| NewDatabase (filename : string) (mode : JSVal)
| DbClose (c : Conn)
| DbRun (c : Conn) (args : list JSVal)
| DbGet (c : Conn) (args : list JSVal)
| DbAll (c : Conn) (args : list JSVal)
| DbEach (c : Conn) (args : list JSVal)
| DbExec (c : Conn) (sql : string)
| DbPrepare (c : Conn) (args : list JSVal)
| StBind (s : StmtRef) (args : list JSVal)
| StReset (s : StmtRef)
| StFinalize (s : StmtRef)
| StRun (s : StmtRef) (args : list JSVal)
| StGet (s : StmtRef) (args : list JSVal)
| StAll (s : StmtRef) (args : list JSVal)
| StEach (s : StmtRef) (args : list JSVal).

(** One invocation of the wrapper's callback: its first argument, the
    [lastID] and [changes] of its [this], and its second argument (the
    row, the rows or the row count). *)
Record Callback : Type := {
  cb_err : JSVal;
  cb_lastID : JSVal;
  cb_changes : JSVal;
  cb_arg : JSVal
}.

(** The module: its open flags and, for a call after a history of calls,
    the invocations of the callback, in order. *)
Record Driver : Type := {
  OPEN_READONLY : Z;
  OPEN_READWRITE : Z;
  OPEN_CREATE : Z;
  respond : list DriverCall -> DriverCall -> list Callback
}.

(** The driver contract of the specification: each callback fires once. *)
Definition fires_once (d : Driver) : Prop :=
  forall history call, List.length (respond d history call) = 1%nat.

End Sqlite3.
Import Sqlite3.

(* ================================================================== *)
(** ** Promises *)
(* ================================================================== *)

Module Promises.

(** The handle's fields. *)
Record Database : Type := {
  db : option Conn;
  filename : option string
}.

(** The world one chain of operations runs in: the handle [this], the
    calls issued to the driver so far, and how often the wrapper has
    called a function its caller supplied ([fn] of [close] and
    [transaction]). *)
Record World : Type := {
  this : Database;
  issued : list DriverCall;
  invoked : nat
}.

Definition with_this (h : Database) (w : World) : World :=
  {| this := h; issued := issued w; invoked := invoked w |}.

(** A call of [resolve] or [reject] made by an executor. *)
Inductive Settle : Type :=
| SResolve (v : JSVal)
| SReject (reason : JSVal).

Inductive Promise : Type :=
| Pending
| Fulfilled (v : JSVal)
| Rejected (reason : JSVal).

(** Only the first call of [resolve] or [reject] settles a promise. *)
Definition settle_state (calls : list Settle) : Promise :=
  match calls with
  | [] => Pending
  | SResolve v :: _ => Fulfilled v
  | SReject r :: _ => Rejected r
  end.

(** An executor: the settle calls it and its callbacks make, in order. *)
Definition Executor := World -> list Settle * World.

(** [new Promise(executor)] *)
Definition new_promise (ex : Executor) (w : World) : Promise * World :=
  let (calls, w') := ex w in (settle_state calls, w').

(** A [then] or [catch] handler: it returns a promise (a plain value [v]
    is [Fulfilled v]) or throws. *)
Definition Handler := JSVal -> World -> Completion Promise * World.

Definition adopt (r : Completion Promise * World) : Promise * World :=
  match r with
  | (Returned q, w) => (q, w)
  | (Threw e, w) => (Rejected e, w)
  end.

(** [p.then(h)] *)
Definition then_ (p : Promise) (h : Handler) (w : World) : Promise * World :=
  match p with
  | Fulfilled v => adopt (h v w)
  | _ => (p, w)
  end.

(** [p.catch(h)] *)
Definition catch_ (p : Promise) (h : Handler) (w : World) : Promise * World :=
  match p with
  | Rejected e => adopt (h e w)
  | _ => (p, w)
  end.

Definition returned (r : Promise * World) : Completion Promise * World :=
  (Returned (fst r), snd r).

(** Hand call [c] to driver [d]: the call joins the history, the driver
    answers with the invocations of the callback. *)
Definition issue (d : Driver) (c : DriverCall) (w : World)
  : list Callback * World :=
  (respond d (issued w) c,
   {| this := this w; issued := issued w ++ [c]; invoked := invoked w |}).

(** Run the wrapper's callback [k] at each invocation: it may update the
    handle and makes one settle call. *)
Fixpoint deliver (k : Callback -> Database -> Settle * Database)
    (cbs : list Callback) (h : Database) : list Settle * Database :=
  match cbs with
  | [] => ([], h)
  | cb :: rest =>
      let (s, h1) := k cb h in
      let (ss, h2) := deliver k rest h1 in
      (s :: ss, h2)
  end.

(** The usual shape: issue the call, run the callback at each answer. *)
Definition adapt (d : Driver) (c : DriverCall)
    (k : Callback -> Database -> Settle * Database) : Executor :=
  fun w =>
    let (cbs, w1) := issue d c w in
    let (calls, h) := deliver k cbs (this w1) in
    (calls, with_this h w1).

End Promises.
Import Promises.

(* ================================================================== *)
(** ** class Database *)
(* ================================================================== *)

Module DatabaseClass.

(** A function the caller supplies to [close] or [transaction]: called
    with the handle, it works on the world and returns a promise, or
    throws before returning one. *)
Definition UserFn := World -> Completion Promise * World.

(** [fn(this)] *)
Definition call (fn : UserFn) (w : World) : Completion Promise * World :=
  fn {| this := this w; issued := issued w; invoked := S (invoked w) |}.

(** [Promise.reject(reason)] *)
Definition promise_reject (reason : JSVal) : Executor :=
  fun w => ([SReject reason], w).

(** ToInt32 and [a | b] *)
Definition to_int32 (z : Z) : Z := (z + 2 ^ 31) mod 2 ^ 32 - 2 ^ 31.
Definition js_bitor (a b : Z) : Z :=
  to_int32 (Z.lor (to_int32 a) (to_int32 b)).

(** [(err) => { if (err) reject(err); else resolve(value) }] *)
Definition settle_with (value : Callback -> JSVal)
    (cb : Callback) (h : Database) : Settle * Database :=
  if truthy (cb_err cb) then (SReject (cb_err cb), h)
  else (SResolve (value cb), h).

Section WithDriver.

Variable sqlite : Driver.

(* ---------------------------- open ---------------------------- *)

Definition open_callback (conn : Conn) (file : string)
    (cb : Callback) (h : Database) : Settle * Database :=
  if truthy (cb_err cb) then (SReject (cb_err cb), h)
  else (SResolve VDatabase, {| db := Some conn; filename := Some file |}).

Definition open_executor (file : string) (mode : JSVal) : Executor :=
  fun w =>
    match db (this w) with
    | Some _ =>
        ([SReject (VErr KError "Database.open: database is already open")], w)
    | None =>
        adapt sqlite (NewDatabase file mode)
          (open_callback (List.length (issued w)) file) w
    end.

(** [Database.OPEN_READWRITE | Database.OPEN_CREATE] *)
Definition default_mode : JSVal :=
  VNum (JInt (js_bitor (OPEN_READWRITE sqlite) (OPEN_CREATE sqlite))).

Definition open_settles (file : string) (mode : JSVal) : Executor :=
  if (typeof mode =? "undefined")%string then
    open_executor file default_mode
  else if negb (typeof mode =? "number")%string then
    promise_reject (VErr KTypeError "Database.open: mode is not a number")
  else open_executor file mode.

Definition open (file : string) (mode : JSVal) : World -> Promise * World :=
  new_promise (open_settles file mode).

(* ---------------------------- close --------------------------- *)

Definition close_callback (cb : Callback) (h : Database)
  : Settle * Database :=
  if truthy (cb_err cb) then (SReject (cb_err cb), h)
  else (SResolve VDatabase, {| db := None; filename := filename h |}).

(** [close()] *)
Definition close_settles : Executor :=
  fun w =>
    match db (this w) with
    | None =>
        promise_reject (VErr KError "Database.close: database is not open") w
    | Some c => adapt sqlite (DbClose c) close_callback w
    end.

Definition close : World -> Promise * World := new_promise close_settles.

(** [close(fn)] *)
Definition close_fn (fn : UserFn) (w : World) : Completion Promise * World :=
  match db (this w) with
  | None =>
      returned (new_promise
        (promise_reject (VErr KError "Database.close: database is not open")) w)
  | Some _ =>
      match call fn w with
      | (Threw e, w1) => (Threw e, w1)
      | (Returned pf, w1) =>
          let (p1, w2) :=
            then_ pf (fun result w =>
              let (pc, w) := close w in
              returned (then_ pc (fun _ w => (Returned (Fulfilled result), w)) w))
              w1 in
          returned
            (catch_ p1 (fun err w =>
               let (pc, w) := close w in
               returned (then_ pc (fun _ w => (Returned (Rejected err), w)) w))
               w2)
      end
  end.

(* ----------------------- run, get, all, each ------------------ *)

Definition run_result (cb : Callback) : JSVal :=
  VObj [("lastID", cb_lastID cb); ("changes", cb_changes cb)].

Definition run_settles (args : list JSVal) : Executor :=
  fun w =>
    match db (this w) with
    | None =>
        ([SReject (VErr KError "Database.run: database is not open")], w)
    | Some c => adapt sqlite (DbRun c args) (settle_with run_result) w
    end.

Definition run (args : list JSVal) : World -> Promise * World :=
  new_promise (run_settles args).

Definition get_settles (args : list JSVal) : Executor :=
  fun w =>
    match db (this w) with
    | None =>
        ([SReject (VErr KError "Database.get: database is not open")], w)
    | Some c => adapt sqlite (DbGet c args) (settle_with cb_arg) w
    end.

Definition get (args : list JSVal) : World -> Promise * World :=
  new_promise (get_settles args).

Definition all_settles (args : list JSVal) : Executor :=
  fun w =>
    match db (this w) with
    | None =>
        ([SReject (VErr KError "Database.all: database is not open")], w)
    | Some c => adapt sqlite (DbAll c args) (settle_with cb_arg) w
    end.

Definition all (args : list JSVal) : World -> Promise * World :=
  new_promise (all_settles args).

(** [args.length === 0 || typeof args[args.length - 1] !== 'function'] *)
Definition no_trailing_function (args : list JSVal) : bool :=
  (List.length args =? 0)%nat
  || negb (typeof (List.last args VUndefined) =? "function")%string.

Definition each_settles (args : list JSVal) : Executor :=
  fun w =>
    match db (this w) with
    | None =>
        ([SReject (VErr KError "Database.each: database is not open")], w)
    | Some c => adapt sqlite (DbEach c args) (settle_with cb_arg) w
    end.

Definition each (args : list JSVal) (w : World)
  : Completion Promise * World :=
  if no_trailing_function args then
    (Threw (VErr KTypeError "Database.each: last arg is not a function"), w)
  else returned (new_promise (each_settles args) w).

(* ------------------------ exec, prepare ----------------------- *)

Definition exec_settles (sql : string) : Executor :=
  fun w =>
    match db (this w) with
    | None =>
        ([SReject (VErr KError "Database.exec: database is not open")], w)
    | Some c => adapt sqlite (DbExec c sql) (settle_with (fun _ => VDatabase)) w
    end.

Definition exec (sql : string) : World -> Promise * World :=
  new_promise (exec_settles sql).

(** The driver's [prepare] returns the statement at once; the callback
    wraps it, [new Statement(statement)]. *)
Definition prepare_settles (args : list JSVal) : Executor :=
  fun w =>
    match db (this w) with
    | None =>
        ([SReject (VErr KError "Database.prepare: database is not open")], w)
    | Some c =>
        let statement := List.length (issued w) in
        adapt sqlite (DbPrepare c args)
          (settle_with (fun _ => VStatement statement)) w
    end.

Definition prepare (args : list JSVal) : World -> Promise * World :=
  new_promise (prepare_settles args).

(* -------------------------- transaction ----------------------- *)

Definition transaction (fn : UserFn) (w : World) : Promise * World :=
  let (pb, w) := exec "BEGIN TRANSACTION" w in
  then_ pb (fun _ w =>
    match call fn w with
    | (Threw e, w1) => (Threw e, w1)
    | (Returned pf, w1) =>
        let (p1, w2) :=
          then_ pf (fun result w =>
            let (pe, w) := exec "END TRANSACTION" w in
            returned (then_ pe (fun _ w => (Returned (Fulfilled result), w)) w))
            w1 in
        returned
          (catch_ p1 (fun err w =>
             let (pr, w) := exec "ROLLBACK TRANSACTION" w in
             returned (then_ pr (fun _ w => (Returned (Rejected err), w)) w))
             w2)
    end) w.

End WithDriver.

End DatabaseClass.

(* ================================================================== *)
(** ** class Statement *)
(* ================================================================== *)

Module StatementClass.

Import DatabaseClass.

(** The constructor accepts driver statements only; [StmtRef] is the type
    of those, so its [instanceof] test has no failing case here. *)
Record Statement : Type := { statement : StmtRef }.

(** [() => { resolve(this) }]: the callback of [reset] takes no argument. *)
Definition reset_callback (self : Statement)
    (cb : Callback) (h : Database) : Settle * Database :=
  (SResolve (VStatement (statement self)), h).

Section WithDriver.

Variable sqlite : Driver.

Definition bind_settles (self : Statement) (args : list JSVal) : Executor :=
  adapt sqlite (StBind (statement self) args)
    (settle_with (fun _ => VStatement (statement self))).

Definition bind (self : Statement) (args : list JSVal)
  : World -> Promise * World :=
  new_promise (bind_settles self args).

Definition reset_settles (self : Statement) : Executor :=
  adapt sqlite (StReset (statement self)) (reset_callback self).

Definition reset (self : Statement) : World -> Promise * World :=
  new_promise (reset_settles self).

Definition finalize_settles (self : Statement) : Executor :=
  adapt sqlite (StFinalize (statement self))
    (settle_with (fun _ => VUndefined)).

Definition finalize (self : Statement) : World -> Promise * World :=
  new_promise (finalize_settles self).

Definition run_settles (self : Statement) (args : list JSVal) : Executor :=
  adapt sqlite (StRun (statement self) args) (settle_with run_result).

Definition run (self : Statement) (args : list JSVal)
  : World -> Promise * World :=
  new_promise (run_settles self args).

Definition get_settles (self : Statement) (args : list JSVal) : Executor :=
  adapt sqlite (StGet (statement self) args) (settle_with cb_arg).

Definition get (self : Statement) (args : list JSVal)
  : World -> Promise * World :=
  new_promise (get_settles self args).

Definition all_settles (self : Statement) (args : list JSVal) : Executor :=
  adapt sqlite (StAll (statement self) args) (settle_with cb_arg).

Definition all (self : Statement) (args : list JSVal)
  : World -> Promise * World :=
  new_promise (all_settles self args).

Definition each_settles (self : Statement) (args : list JSVal) : Executor :=
  adapt sqlite (StEach (statement self) args) (settle_with cb_arg).

Definition each (self : Statement) (args : list JSVal) (w : World)
  : Completion Promise * World :=
  if no_trailing_function args then
    (Threw (VErr KTypeError "Statement.each: last arg is not a function"), w)
  else returned (new_promise (each_settles self args) w).

End WithDriver.

End StatementClass.

(* ================================================================== *)
(** ** The query helper: [query] and [queryWithSelect] *)
(* ================================================================== *)

Module QueryHelper.

Import DatabaseClass.

Record QueryOptions : Type := {
  key : option string;
  condition : option string;
  page : option string;
  pagecap : option string
}.

(** [{}] *)
Definition no_options : QueryOptions :=
  {| key := None; condition := None; page := None; pagecap := None |}.

(** Truthiness of an optional string: present and not empty. *)
Definition given (o : option string) : bool :=
  match o with
  | Some s => negb (s =? "")%string
  | None => false
  end.

Definition text (o : option string) : string :=
  match o with Some s => s | None => "undefined" end.

Definition dquote : string := String (ascii_of_nat 34) EmptyString.

(** [let condition], from [options.key] and [keys]. *)
Definition key_condition (options : QueryOptions) (keys : list string)
  : option string :=
  if given (key options) && (0 <? List.length keys)%nat then
    let cons :=
      map (fun k => k ++ " LIKE " ++ dquote ++ "%" ++ text (key options)
                      ++ "%" ++ dquote) keys in
    Some ("(" ++ String.concat " OR " cons ++ ")")
  else None.

(** [sql] before pagination. *)
Definition select_sql (options : QueryOptions) (table : string)
    (keys : list string) (select : string) : string :=
  let sql := "SELECT " ++ select ++ " FROM " ++ table in
  let condition_ := key_condition options keys in
  let sql :=
    if given condition_ then sql ++ " WHERE " ++ text condition_ else sql in
  if given (condition options) then
    sql ++ (if given condition_ then " AND " ++ text (condition options)
            else " WHERE " ++ text (condition options))
  else sql.

(** [parseInt(options.page, 10)] and [parseInt(options.pagecap || "10", 10)] *)
Definition page_of (options : QueryOptions) : JSNum :=
  parseInt10 (text (page options)).

Definition pagecap_of (options : QueryOptions) : JSNum :=
  parseInt10 (if given (pagecap options) then text (pagecap options) else "10").

(** [sql] after [LIMIT ... OFFSET ...] was appended. *)
Definition paged_sql (options : QueryOptions) (table : string)
    (keys : list string) (select : string) : string :=
  let offset := js_mul (js_sub (page_of options) (JInt 1)) (pagecap_of options) in
  select_sql options table keys select
    ++ " LIMIT " ++ num_to_string (pagecap_of options)
    ++ " OFFSET " ++ num_to_string offset.

(** [sqlcount] *)
Definition count_sql (options : QueryOptions) (table : string)
    (keys : list string) : string :=
  let sqlcount := "SELECT COUNT(*) AS count FROM " ++ table in
  let condition_ := key_condition options keys in
  if given condition_ then sqlcount ++ " WHERE " ++ text condition_
  else sqlcount ++ " WHERE tile_data IS NOT NULL".

(** [await p], then the rest of the async function. *)
Definition await (p : Promise) (rest : JSVal -> World -> Promise * World)
    (w : World) : Promise * World :=
  match p with
  | Fulfilled v => rest v w
  | _ => (p, w)
  end.

Section WithDriver.

Variable sqlite : Driver.

(** The coercion of a string or an object to a number, which the
    division applies to [allcount] when the row holds no number there.
    It is ECMAScript's and is left open. *)
Variable coerce : JSVal -> JSNum.

Definition to_number (v : JSVal) : JSNum :=
  match v with
  | VNum n => n
  | VUndefined => JNaN
  | VNull => JInt 0
  | VBool b => JInt (if b then 1 else 0)
  | _ => coerce v
  end.

Definition queryWithSelect (options : option QueryOptions) (table : string)
    (keys : list string) (select : string) (w : World) : Promise * World :=
  match db (this w) with
  | None => (Rejected (VErr KError "database not connected"), w)
  | Some _ =>
      let options := match options with Some o => o | None => no_options end in
      let ret := [("rows", VArr [])] in
      if given (page options) then
        let (pcount, w) := get sqlite [VStr (count_sql options table keys)] w in
        await pcount (fun countResult w =>
          match get_prop countResult "count" with
          | Threw e => (Rejected e, w)
          | Returned allcount =>
              let ret := set_field "allcount" allcount ret in
              let ret := set_field "page" (VNum (page_of options)) ret in
              let ret := set_field "pagecap" (VNum (pagecap_of options)) ret in
              let ret :=
                set_field "pagecount"
                  (VNum (js_ceil_div
                           (to_number (js_or allcount (VNum (JInt 0))))
                           (pagecap_of options))) ret in
              let (prows, w) :=
                all sqlite [VStr (paged_sql options table keys select)] w in
              await prows (fun rows w =>
                (Fulfilled (VObj (set_field "rows" rows ret)), w)) w
          end) w
      else
        let (prows, w) :=
          all sqlite [VStr (select_sql options table keys select)] w in
        await prows (fun rows w =>
          (Fulfilled (VObj (set_field "rows" rows ret)), w)) w
  end.

Definition query (options : option QueryOptions) (table : string)
    (keys : list string) : World -> Promise * World :=
  queryWithSelect options table keys "*".

End WithDriver.

End QueryHelper.

(* ================================================================== *)
(** ** The promise-returning operations, as one type *)
(* ================================================================== *)

Module Operations.

Import StatementClass.

Inductive Operation : Type :=
| OpOpen (file : string) (mode : JSVal)
| OpClose
| OpRun (args : list JSVal)
| OpGet (args : list JSVal)
| OpAll (args : list JSVal)
| OpEach (args : list JSVal)
| OpExec (sql : string)
| OpPrepare (args : list JSVal)
| OpBind (self : Statement) (args : list JSVal)
| OpReset (self : Statement)
| OpFinalize (self : Statement)
| OpStmtRun (self : Statement) (args : list JSVal)
| OpStmtGet (self : Statement) (args : list JSVal)
| OpStmtAll (self : Statement) (args : list JSVal)
| OpStmtEach (self : Statement) (args : list JSVal).

Section WithDriver.

Variable sqlite : Driver.

(** Calling the operation: the promise it returns, or what it throws. *)
Definition perform (o : Operation) (w : World) : Completion Promise * World :=
  match o with
  | OpOpen file mode => returned (DatabaseClass.open sqlite file mode w)
  | OpClose => returned (DatabaseClass.close sqlite w)
  | OpRun args => returned (DatabaseClass.run sqlite args w)
  | OpGet args => returned (DatabaseClass.get sqlite args w)
  | OpAll args => returned (DatabaseClass.all sqlite args w)
  | OpEach args => DatabaseClass.each sqlite args w
  | OpExec sql => returned (DatabaseClass.exec sqlite sql w)
  | OpPrepare args => returned (DatabaseClass.prepare sqlite args w)
  | OpBind self args => returned (bind sqlite self args w)
  | OpReset self => returned (reset sqlite self w)
  | OpFinalize self => returned (finalize sqlite self w)
  | OpStmtRun self args => returned (run sqlite self args w)
  | OpStmtGet self args => returned (get sqlite self args w)
  | OpStmtAll self args => returned (all sqlite self args w)
  | OpStmtEach self args => each sqlite self args w
  end.

(** The executor behind the promise of the operation. *)
Definition executor_of (o : Operation) : Executor :=
  match o with
  | OpOpen file mode => DatabaseClass.open_settles sqlite file mode
  | OpClose => DatabaseClass.close_settles sqlite
  | OpRun args => DatabaseClass.run_settles sqlite args
  | OpGet args => DatabaseClass.get_settles sqlite args
  | OpAll args => DatabaseClass.all_settles sqlite args
  | OpEach args => DatabaseClass.each_settles sqlite args
  | OpExec sql => DatabaseClass.exec_settles sqlite sql
  | OpPrepare args => DatabaseClass.prepare_settles sqlite args
  | OpBind self args => bind_settles sqlite self args
  | OpReset self => reset_settles sqlite self
  | OpFinalize self => finalize_settles sqlite self
  | OpStmtRun self args => run_settles sqlite self args
  | OpStmtGet self args => get_settles sqlite self args
  | OpStmtAll self args => all_settles sqlite self args
  | OpStmtEach self args => each_settles sqlite self args
  end.

(** The calls of [resolve] and [reject] made for the promise that
    [perform] returns. *)
Definition settle_calls (o : Operation) (w : World) : list Settle :=
  fst (executor_of o w).

(** The driver calls the operation issues. *)
Definition calls_of (o : Operation) (w : World) : list DriverCall :=
  skipn (List.length (issued w)) (issued (snd (perform o w))).

End WithDriver.

(** The operations the specification names data operations, and [close]. *)
Definition needs_connection (o : Operation) : bool :=
  match o with
  | OpClose | OpRun _ | OpGet _ | OpAll _ | OpEach _ | OpExec _
  | OpPrepare _ => true
  | _ => false
  end.

Definition is_reset (o : Operation) : bool :=
  match o with OpReset _ => true | _ => false end.

End Operations.

(* ================================================================== *)
(** ** Vocabulary of the specification *)
(* ================================================================== *)

Module Vocabulary.

Import DatabaseClass Operations.

(** The error kinds of the specification, as the wrapper makes them. *)
Definition NotOpen (reason : JSVal) : Prop :=
  exists op, reason = VErr KError ("Database." ++ op ++ ": database is not open").

Definition InvalidArgument (reason : JSVal) : Prop :=
  exists msg, reason = VErr KTypeError msg.

(** A handle that [close()] has closed. *)
Definition already_closed (sqlite : Driver) (w : World) : Prop :=
  exists w0 v, close sqlite w0 = (Fulfilled v, w).

(** The argument list ends in a function. *)
Definition ends_in_function (args : list JSVal) : Prop :=
  exists init id, args = (init ++ [VFun id])%list.

(** [each] is called with a trailing function; nothing is asked of the
    other operations. *)
Definition well_called (o : Operation) : Prop :=
  match o with
  | OpEach args | OpStmtEach _ args => ends_in_function args
  | _ => True
  end.

(** The driver answers the one call that operation [o] issues from [w]
    with one invocation of the callback, reporting [e]. *)
Definition reports_error (sqlite : Driver) (o : Operation) (w : World)
    (e : JSVal) : Prop :=
  exists c cb,
    calls_of sqlite o w = [c]
    /\ respond sqlite (issued w) c = [cb]
    /\ cb_err cb = e
    /\ truthy e = true.

(** The mode [open] hands to the driver. *)
Definition mode_passed (sqlite : Driver) (mode : JSVal) : JSVal :=
  if (typeof mode =? "undefined")%string then default_mode sqlite else mode.

(** The driver answers call [c], made after [history], once and with
    success. *)
Definition succeeds (sqlite : Driver) (history : list DriverCall)
    (c : DriverCall) : Prop :=
  exists cb, respond sqlite history c = [cb] /\ truthy (cb_err cb) = false.

(** The driver answers call [c], made after [history], once and with
    error [e]. *)
Definition fails_with (sqlite : Driver) (history : list DriverCall)
    (c : DriverCall) (e : JSVal) : Prop :=
  exists cb, respond sqlite history c = [cb] /\ cb_err cb = e
             /\ truthy e = true.

End Vocabulary.

(* ================================================================== *)
(** ** Sample drivers, worlds and caller functions *)
(* ================================================================== *)

Module Samples.

Import DatabaseClass.

(** A callback invocation that reports success. *)
Definition ok : Callback :=
  {| cb_err := VNull; cb_lastID := VNum (JInt 1);
     cb_changes := VNum (JInt 1); cb_arg := VUndefined |}.

(** A callback invocation that reports [e]. *)
Definition failing (e : JSVal) : Callback :=
  {| cb_err := e; cb_lastID := VUndefined;
     cb_changes := VUndefined; cb_arg := VUndefined |}.

Definition busy : JSVal := VErr KDriver "SQLITE_BUSY: database is locked".
Definition boom : JSVal := VErr KError "boom".

(** A driver with the flags of sqlite3 and the given answers. *)
Definition driver (answers : list DriverCall -> DriverCall -> list Callback)
  : Driver :=
  {| OPEN_READONLY := 1; OPEN_READWRITE := 2; OPEN_CREATE := 4;
     respond := answers |}.

(** Every call succeeds. *)
Definition agreeable : Driver := driver (fun _ _ => [ok]).

(** Every call fails with [busy]. *)
Definition locked : Driver := driver (fun _ _ => [failing busy]).

(** Only [ROLLBACK TRANSACTION] fails. *)
Definition no_rollback : Driver :=
  driver (fun _ c =>
    match c with
    | DbExec _ sql =>
        if (sql =? "ROLLBACK TRANSACTION")%string then [failing busy] else [ok]
    | _ => [ok]
    end).

(** Only [close] fails. *)
Definition no_close : Driver :=
  driver (fun _ c =>
    match c with
    | DbClose _ => [failing busy]
    | _ => [ok]
    end).

(** A handle that was never opened. *)
Definition fresh : World :=
  {| this := {| db := None; filename := None |}; issued := []; invoked := 0 |}.

(** The handle after [open("test.db")]. *)
Definition opened : World :=
  {| this := {| db := Some 0%nat; filename := Some "test.db" |};
     issued := [NewDatabase "test.db" (VNum (JInt 6))];
     invoked := 0 |}.

(** The handle after [prepare("INSERT INTO t VALUES (?)")], and the
    Statement that call resolved with. *)
Definition prepared : World :=
  {| this := {| db := Some 0%nat; filename := Some "test.db" |};
     issued := [NewDatabase "test.db" (VNum (JInt 6));
                DbPrepare 0%nat [VStr "INSERT INTO t VALUES (?)"]];
     invoked := 0 |}.

Definition insert_stmt : StatementClass.Statement :=
  {| StatementClass.statement := 1%nat |}.

(** A driver that succeeds and hands the row [{count: n}] and the rows
    [[{name: "foo"}]] to the callbacks of [get] and [all]. *)
Definition counting (n : Z) : Driver :=
  driver (fun _ c =>
    match c with
    | DbGet _ _ =>
        [{| cb_err := VNull; cb_lastID := VUndefined; cb_changes := VUndefined;
            cb_arg := VObj [("count", VNum (JInt n))] |}]
    | DbAll _ _ =>
        [{| cb_err := VNull; cb_lastID := VUndefined; cb_changes := VUndefined;
            cb_arg := VArr [VObj [("name", VStr "foo")]] |}]
    | _ => [ok]
    end).

(** [{key: "foo", page: "2", pagecap: "5"}] *)
Definition foo_options : QueryHelper.QueryOptions :=
  {| QueryHelper.key := Some "foo"; QueryHelper.condition := None;
     QueryHelper.page := Some "2"; QueryHelper.pagecap := Some "5" |}.

Definition foo_rows_sql : string :=
  "SELECT * FROM items WHERE (name LIKE " ++ QueryHelper.dquote ++ "%foo%"
    ++ QueryHelper.dquote ++ ") LIMIT 5 OFFSET 5".

Definition foo_count_sql : string :=
  "SELECT COUNT(*) AS count FROM items WHERE (name LIKE " ++ QueryHelper.dquote
    ++ "%foo%" ++ QueryHelper.dquote ++ ")".

(** [{condition: "age > 3", page: "1"}] *)
Definition age_options : QueryHelper.QueryOptions :=
  {| QueryHelper.key := None; QueryHelper.condition := Some "age > 3";
     QueryHelper.page := Some "1"; QueryHelper.pagecap := None |}.

(** A coercion that makes every string and object NaN. *)
Definition nan_coercion : JSVal -> JSNum := fun _ => JNaN.

(** [async db => { throw boom }] *)
Definition rejecting : UserFn := fun w => (Returned (Rejected boom), w).

(** [async db => 42] *)
Definition resolving : UserFn :=
  fun w => (Returned (Fulfilled (VNum (JInt 42))), w).

End Samples.

(* ================================================================== *)
(** ** class Database: the static [open] and [delete] *)
(* ================================================================== *)

Module DatabaseMore.

Import DatabaseClass QueryHelper.

(** [s.split(sep)] for a separator of one character. *)
Fixpoint split (sep : ascii) (s : string) : list string :=
  match s with
  | EmptyString => [""]
  | String c rest =>
      if Ascii.eqb c sep then "" :: split sep rest
      else match split sep rest with
           | piece :: pieces => String c piece :: pieces
           | [] => [String c ""]
           end
  end.

(** The statement of [delete]: every id quoted, the ids joined. *)
Definition delete_sql (id table : string) : string :=
  let ids := split "," id in
  let idstr := String.concat "," (map (fun d => dquote ++ d ++ dquote) ids) in
  "DELETE FROM " ++ table ++ " WHERE _id IN (" ++ idstr ++ ")".

Section WithDriver.

Variable sqlite : Driver.

(** [Database.open(filename, mode)]: a new handle, then [open] on it.
    The new handle takes the place of [this] in the world. *)
Definition static_open (file : string) (mode : JSVal) (w : World)
  : Promise * World :=
  open sqlite file mode (with_this {| db := None; filename := None |} w).

Definition delete_settles (id table : string) (c : Conn) : Executor :=
  adapt sqlite (DbExec c (delete_sql id table))
    (settle_with (fun _ => VUndefined)).

Definition delete (id table : string) (w : World) : Promise * World :=
  match db (this w) with
  | None => (Rejected (VErr KError "database not connected"), w)
  | Some c => new_promise (delete_settles id table c) w
  end.

End WithDriver.

End DatabaseMore.

(* ================================================================== *)
(** ** class DatabaseMemory *)
(* ================================================================== *)

Module MemoryClass.

Import QueryHelper.

(** The handle's one field. *)
Record DatabaseMemory : Type := { db : option Conn }.

(** A line written with [console.log] or [console.error]: its text and,
    for the failure lines, the error printed after it. *)
Inductive Stream : Type := Out | Err.

Record Line : Type := {
  stream : Stream;
  message : string;
  detail : option JSVal
}.

(** The world of a DatabaseMemory: the handle, the calls issued to the
    driver and the console. *)
Record World : Type := {
  this : DatabaseMemory;
  issued : list DriverCall;
  console : list Line
}.

Definition with_this (h : DatabaseMemory) (w : World) : World :=
  {| this := h; issued := issued w; console := console w |}.

(** [console.log(message)] *)
Definition console_log (msg : string) (w : World) : World :=
  {| this := this w; issued := issued w;
     console := console w
                ++ [{| stream := Out; message := msg; detail := None |}] |}.

(** [console.error(message)] and [console.error(message, err)] *)
Definition console_error (msg : string) (err : option JSVal) (w : World)
  : World :=
  {| this := this w; issued := issued w;
     console := console w
                ++ [{| stream := Err; message := msg; detail := err |}] |}.

Definition issue (d : Driver) (c : DriverCall) (w : World)
  : list Callback * World :=
  (respond d (issued w) c,
   {| this := this w; issued := issued w ++ [c]; console := console w |}).

(** Run callback [k] at each invocation; it writes to the console and may
    settle a promise. *)
Fixpoint deliver (k : Callback -> World -> list Settle * World)
    (cbs : list Callback) (w : World) : list Settle * World :=
  match cbs with
  | [] => ([], w)
  | cb :: rest =>
      let (s, w1) := k cb w in
      let (ss, w2) := deliver k rest w1 in
      ((s ++ ss)%list, w2)
  end.

(** The callback of the methods that return nothing: one line on the
    console, no promise. *)
Definition report (failure success : string)
    (cb : Callback) (w : World) : list Settle * World :=
  if truthy (cb_err cb) then ([], console_error failure (Some (cb_err cb)) w)
  else ([], console_log success w).

Section WithDriver.

Variable sqlite : Driver.

(** [this.db.run(query, ...more, callback)] with a reporting callback. *)
Definition run_and_report (c : Conn) (args : list JSVal)
    (failure success : string) (w : World) : World :=
  let (cbs, w1) := issue sqlite (DbRun c args) w in
  snd (deliver (report failure success) cbs w1).

(** [DatabaseMemory.open(databaseName)].  The new handle takes the place
    of [this]; its [db] is assigned as soon as the driver object is made.
    The driver is called without a mode. *)
Definition open (databaseName : option string) (w : World)
  : Promise * World :=
  let databaseName :=
    match databaseName with Some n => n | None => ":memory:" end in
  let conn := List.length (issued w) in
  let (cbs, w1) := issue sqlite (NewDatabase databaseName VUndefined) w in
  let w2 := with_this {| db := Some conn |} w1 in
  let (calls, w3) :=
    deliver (fun cb w =>
      if truthy (cb_err cb) then
        ([SReject (cb_err cb)],
         console_error
           ("Failed to connect to the database " ++ databaseName ++ ":")
           (Some (cb_err cb)) w)
      else
        ([SResolve VDatabase],
         console_log ("Connected to the database " ++ databaseName ++ ".") w))
      cbs w2 in
  (settle_state calls, w3).

Definition createSharedMemoryDatabase (databaseName : string)
  : World -> Promise * World :=
  open (Some ("file:" ++ databaseName ++ "?mode=memory&cache=shared")).

Definition createTable (tableName : string) (columns : list string)
    (w : World) : World :=
  match db (this w) with
  | Some c =>
      let columnsString := String.concat ", " columns in
      let query :=
        "CREATE TABLE IF NOT EXISTS " ++ tableName
          ++ " (" ++ columnsString ++ ")" in
      run_and_report c [VStr query] "Failed to create table:"
        ("Table " ++ tableName ++ " created successfully.") w
  | None => console_error "Database is not open." None w
  end.

Definition insert (tableName : string) (columns : list string)
    (values : list JSVal) (w : World) : World :=
  match db (this w) with
  | Some c =>
      let placeholders := String.concat ", " (map (fun _ => "?") columns) in
      let query :=
        "INSERT INTO " ++ tableName ++ " (" ++ String.concat ", " columns
          ++ ") VALUES (" ++ placeholders ++ ")" in
      run_and_report c [VStr query; VArr values] "Failed to insert data:"
        ("Data inserted into " ++ tableName ++ " successfully.") w
  | None => console_error "Database is not open." None w
  end.

(** [query(query, params = [])] *)
Definition query (sql : string) (params : option (list JSVal)) (w : World)
  : Promise * World :=
  let params := match params with Some ps => ps | None => [] end in
  match db (this w) with
  | Some c =>
      let (cbs, w1) := issue sqlite (DbAll c [VStr sql; VArr params]) w in
      let (calls, w2) :=
        deliver (fun cb w =>
          if truthy (cb_err cb) then
            ([SReject (cb_err cb)],
             console_error "Failed to query data:" (Some (cb_err cb)) w)
          else ([SResolve (cb_arg cb)], w))
          cbs w1 in
      (settle_state calls, w2)
  | None =>
      (settle_state [SReject (VErr KError "Database is not open.")],
       console_error "Database is not open." None w)
  end.

Definition update (tableName setClause whereClause : string)
    (params : list JSVal) (w : World) : World :=
  match db (this w) with
  | Some c =>
      let query :=
        "UPDATE " ++ tableName ++ " SET " ++ setClause
          ++ " WHERE " ++ whereClause in
      run_and_report c [VStr query; VArr params] "Failed to update data:"
        ("Data in " ++ tableName ++ " updated successfully.") w
  | None => console_error "Database is not open." None w
  end.

Definition delete (tableName whereClause : string) (params : list JSVal)
    (w : World) : World :=
  match db (this w) with
  | Some c =>
      let query := "DELETE FROM " ++ tableName ++ " WHERE " ++ whereClause in
      run_and_report c [VStr query; VArr params] "Failed to delete data:"
        ("Data from " ++ tableName ++ " deleted successfully.") w
  | None => console_error "Database is not open." None w
  end.

(** [close()]: the close is requested, [this.db] is cleared at once, and
    the callback reports when the driver answers. *)
Definition close (w : World) : World :=
  match db (this w) with
  | Some c =>
      let (cbs, w1) := issue sqlite (DbClose c) w in
      let w2 := with_this {| db := None |} w1 in
      snd (deliver (report "Failed to close the database:"
                      "Database connection closed.") cbs w2)
  | None => console_error "Database is not open." None w
  end.

End WithDriver.

(** The methods that return nothing, as one type. *)
Inductive Method : Type :=
| MCreateTable (tableName : string) (columns : list string)
| MInsert (tableName : string) (columns : list string) (values : list JSVal)
| MUpdate (tableName setClause whereClause : string) (params : list JSVal)
| MDelete (tableName whereClause : string) (params : list JSVal)
| MClose.

Definition invoke (sqlite : Driver) (m : Method) (w : World) : World :=
  match m with
  | MCreateTable t cols => createTable sqlite t cols w
  | MInsert t cols vals => insert sqlite t cols vals w
  | MUpdate t sc wc ps => update sqlite t sc wc ps w
  | MDelete t wc ps => delete sqlite t wc ps w
  | MClose => close sqlite w
  end.

End MemoryClass.

(* ================================================================== *)
(** ** Characters of a string *)
(* ================================================================== *)

Module Text.

(** Does character [c] occur in [s]? *)
Fixpoint has_char (c : ascii) (s : string) : bool :=
  match s with
  | EmptyString => false
  | String c' rest => Ascii.eqb c' c || has_char c rest
  end.

End Text.

(* ================================================================== *)
(** ** Decimal digits *)
(* ================================================================== *)

Module Digits.


End Digits.

(* ================================================================== *)
(** ** More sample drivers and worlds *)
(* ================================================================== *)

Module MoreSamples.

Import Samples.

(** Only [END TRANSACTION] fails. *)
Definition no_commit : Driver :=
  driver (fun _ c =>
    match c with
    | DbExec _ sql =>
        if (sql =? "END TRANSACTION")%string then [failing busy] else [ok]
    | _ => [ok]
    end).

Definition is_close (c : DriverCall) : bool :=
  match c with DbClose _ => true | _ => false end.

(** The first [close] fails, a later one succeeds. *)
Definition closes_at_second_try : Driver :=
  driver (fun history c =>
    match c with
    | DbClose _ => if existsb is_close history then [ok] else [failing busy]
    | _ => [ok]
    end).

(** A driver whose [close] never calls back. *)
Definition silent_close : Driver :=
  driver (fun _ c =>
    match c with
    | DbClose _ => []
    | _ => [ok]
    end).

(** [{key: "a", page: "3"}] *)
Definition third_page : QueryHelper.QueryOptions :=
  {| QueryHelper.key := Some "a"; QueryHelper.condition := None;
     QueryHelper.page := Some "3"; QueryHelper.pagecap := None |}.

(** [{page: "x"}] *)
Definition bad_page : QueryHelper.QueryOptions :=
  {| QueryHelper.key := None; QueryHelper.condition := None;
     QueryHelper.page := Some "x"; QueryHelper.pagecap := None |}.

(** [{page: "1", pagecap: "0"}] *)
Definition zero_cap : QueryHelper.QueryOptions :=
  {| QueryHelper.key := None; QueryHelper.condition := None;
     QueryHelper.page := Some "1"; QueryHelper.pagecap := Some "0" |}.

(** [{condition: "age > 3"}] *)
Definition only_condition : QueryHelper.QueryOptions :=
  {| QueryHelper.key := None; QueryHelper.condition := Some "age > 3";
     QueryHelper.page := None; QueryHelper.pagecap := None |}.

(** A DatabaseMemory that was never opened, and one that is open. *)
Definition memory_fresh : MemoryClass.World :=
  {| MemoryClass.this := {| MemoryClass.db := None |};
     MemoryClass.issued := [];
     MemoryClass.console := [] |}.

Definition memory_opened : MemoryClass.World :=
  {| MemoryClass.this := {| MemoryClass.db := Some 0%nat |};
     MemoryClass.issued := [NewDatabase ":memory:" VUndefined];
     MemoryClass.console :=
       [{| MemoryClass.stream := MemoryClass.Out;
           MemoryClass.message := "Connected to the database :memory:.";
           MemoryClass.detail := None |}] |}.

End MoreSamples.

(* ================================================================== *)
(** ** Properties *)
(* ================================================================== *)

Import DatabaseClass Operations Vocabulary.

(** *** The adapter *)

Lemma new_promise_eq (ex : Executor) (w : World) :
  new_promise ex w = (settle_state (fst (ex w)), snd (ex w)).
Proof. unfold new_promise. destruct (ex w); reflexivity. Qed.

Lemma deliver_one k cb h :
  deliver k [cb] h = ([fst (k cb h)], snd (k cb h)).
Proof. simpl. destruct (k cb h); reflexivity. Qed.

Lemma adapt_answer d c k w cb :
  respond d (issued w) c = [cb] ->
  adapt d c k w =
    ([fst (k cb (this w))],
     {| this := snd (k cb (this w));
        issued := issued w ++ [c];
        invoked := invoked w |}).
Proof.
  intros Hcb. unfold adapt, issue. rewrite Hcb. simpl.
  destruct (k cb (this w)); reflexivity.
Qed.

Lemma fires_once_answer d :
  fires_once d -> forall history c, exists cb, respond d history c = [cb].
Proof.
  intros H history c. specialize (H history c).
  destruct (respond d history c) as [|cb [|cb' rest]]; try discriminate.
  now exists cb.
Qed.

Lemma adapt_once d c k w :
  fires_once d -> exists s, fst (adapt d c k w) = [s].
Proof.
  intros H. destruct (fires_once_answer d H (issued w) c) as [cb Hcb].
  rewrite (adapt_answer _ _ _ _ _ Hcb). simpl. eauto.
Qed.

Lemma settle_with_error value cb h :
  truthy (cb_err cb) = true ->
  settle_with value cb h = (SReject (cb_err cb), h).
Proof. intros H. unfold settle_with. now rewrite H. Qed.

Lemma settle_with_success value cb h :
  truthy (cb_err cb) = false ->
  settle_with value cb h = (SResolve (value cb), h).
Proof. intros H. unfold settle_with. now rewrite H. Qed.

(** What [perform] returns is the promise of the operation's executor. *)
Lemma perform_returned sqlite o w p w' :
  perform sqlite o w = (Returned p, w') ->
  p = settle_state (settle_calls sqlite o w)
  /\ w' = snd (executor_of sqlite o w).
Proof.
  unfold settle_calls.
  destruct o; simpl;
    unfold DatabaseClass.open, DatabaseClass.close, DatabaseClass.run,
      DatabaseClass.get, DatabaseClass.all, DatabaseClass.each,
      DatabaseClass.exec, DatabaseClass.prepare,
      StatementClass.bind, StatementClass.reset, StatementClass.finalize,
      StatementClass.run, StatementClass.get, StatementClass.all,
      StatementClass.each, returned;
    try destruct (no_trailing_function args); try discriminate;
    rewrite new_promise_eq; simpl; intros H; inversion H; auto.
Qed.

Lemma executor_once sqlite o w :
  fires_once sqlite -> exists s, fst (executor_of sqlite o w) = [s].
Proof.
  intros Honce.
  destruct o; simpl;
    unfold open_settles, open_executor, close_settles, run_settles,
      get_settles, all_settles, each_settles, exec_settles, prepare_settles,
      promise_reject,
      StatementClass.bind_settles, StatementClass.reset_settles,
      StatementClass.finalize_settles, StatementClass.run_settles,
      StatementClass.get_settles, StatementClass.all_settles,
      StatementClass.each_settles;
    repeat match goal with
           | |- context [if ?b then _ else _] => destruct b
           | |- context [match db ?h with _ => _ end] => destruct (db h)
           end;
    simpl; eauto using adapt_once.
Qed.

(** *** Settlement *)

(** C3.  Under the driver contract (every callback fires exactly once),
    the promise returned by [open], [close], [run], [get], [all], [each],
    [exec] and [prepare] of a Database and by [bind], [reset], [finalize],
    [run], [get], [all] and [each] of a Statement is settled by exactly
    one call of [resolve] or [reject]: never none, never two. *)
Theorem settled_exactly_once sqlite o w p w' :
  fires_once sqlite ->
  perform sqlite o w = (Returned p, w') ->
  exists s, settle_calls sqlite o w = [s] /\ p = settle_state [s].
Proof.
  intros Honce Hp.
  destruct (perform_returned _ _ _ _ _ Hp) as [Hstate _].
  destruct (executor_once sqlite o w Honce) as [s Hs].
  exists s. unfold settle_calls in *. rewrite Hs in Hstate. auto.
Qed.

Lemma settled_exactly_once_witness :
  fires_once Samples.agreeable
  /\ exists s,
       settle_calls Samples.agreeable (OpRun [VStr "DELETE FROM t"])
         Samples.opened = [s]
       /\ Fulfilled (VObj [("lastID", VNum (JInt 1)); ("changes", VNum (JInt 1))])
          = settle_state [s].
Proof.
  split.
  - intros history c. reflexivity.
  - apply (settled_exactly_once Samples.agreeable
             (OpRun [VStr "DELETE FROM t"]) Samples.opened _
             (snd (perform Samples.agreeable (OpRun [VStr "DELETE FROM t"])
                     Samples.opened))).
    + intros history c. reflexivity.
    + reflexivity.
Defined.

(** *** The open/closed lifecycle *)

Lemma deliver_close_detached cbs h :
  db h = None -> db (snd (deliver close_callback cbs h)) = None.
Proof.
  revert h. induction cbs as [|cb rest IH]; intros h Hh; simpl; auto.
  unfold close_callback at 1.
  destruct (truthy (cb_err cb)).
  - specialize (IH h Hh). destruct (deliver close_callback rest h); auto.
  - specialize (IH {| db := None; filename := filename h |} eq_refl).
    destruct (deliver close_callback rest _); auto.
Qed.

Lemma deliver_close_fulfilled cbs h v :
  settle_state (fst (deliver close_callback cbs h)) = Fulfilled v ->
  db (snd (deliver close_callback cbs h)) = None.
Proof.
  destruct cbs as [|cb rest]; simpl; [discriminate|].
  unfold close_callback at 1 3.
  destruct (truthy (cb_err cb)).
  - destruct (deliver close_callback rest h); simpl; discriminate.
  - intros _.
    pose proof (deliver_close_detached rest
                  {| db := None; filename := filename h |} eq_refl) as H.
    destruct (deliver close_callback rest _); auto.
Qed.

(** After [close()] has resolved, the handle holds no connection. *)
Lemma close_detaches sqlite w0 v w :
  close sqlite w0 = (Fulfilled v, w) -> db (this w) = None.
Proof.
  unfold close. rewrite new_promise_eq. unfold close_settles, promise_reject.
  destruct (db (this w0)) as [c|]; simpl; [|discriminate].
  unfold adapt, issue. simpl.
  intros H.
  pose proof (deliver_close_fulfilled
                (respond sqlite (issued w0) (DbClose c)) (this w0) v) as Hd.
  destruct (deliver close_callback _ (this w0)) as [calls h] eqn:E.
  simpl in *. inversion H; subst. simpl. apply Hd. assumption.
Qed.

Lemma ends_in_function_guard args :
  ends_in_function args -> no_trailing_function args = false.
Proof.
  intros (init & id & ->). unfold no_trailing_function.
  rewrite List.last_last. simpl.
  destruct init; reflexivity.
Qed.

Lemma not_open_intro op :
  NotOpen (VErr KError ("Database." ++ op ++ ": database is not open")).
Proof. now exists op. Qed.

(** C4.  On a handle with no connection attached, and so on a handle that
    [close()] has already closed, each of [run], [get], [all], [each]
    (called with a trailing function), [exec], [prepare] and [close], with
    or without a function, rejects with a NotOpen error; the driver is
    not called and the handle is unchanged. *)
Theorem not_open_rejects sqlite w :
  db (this w) = None \/ already_closed sqlite w ->
  (forall o, needs_connection o = true -> well_called o ->
     exists r, perform sqlite o w = (Returned (Rejected r), w) /\ NotOpen r)
  /\ (forall fn,
        exists r, close_fn sqlite fn w = (Returned (Rejected r), w)
                  /\ NotOpen r).
Proof.
  intros H.
  assert (Hdb : db (this w) = None).
  { destruct H as [H | (w0 & v & H)]; [assumption|].
    eapply close_detaches; eassumption. }
  clear H. split.
  - intros o Ho Hcall.
    destruct o; try discriminate; simpl in *;
      unfold close, run, get, all, each, exec, prepare, returned;
      try rewrite (ends_in_function_guard _ Hcall);
      rewrite new_promise_eq;
      unfold close_settles, run_settles, get_settles, all_settles,
        each_settles, exec_settles, prepare_settles, promise_reject;
      rewrite Hdb; simpl; eexists; (split; [reflexivity|]).
    + apply (not_open_intro "close").
    + apply (not_open_intro "run").
    + apply (not_open_intro "get").
    + apply (not_open_intro "all").
    + apply (not_open_intro "each").
    + apply (not_open_intro "exec").
    + apply (not_open_intro "prepare").
  - intros fn. unfold close_fn. rewrite Hdb.
    eexists; split; [reflexivity|]. apply (not_open_intro "close").
Qed.

Lemma not_open_rejects_witness :
  (db (this Samples.fresh) = None
   \/ already_closed Samples.agreeable Samples.fresh)
  /\ (exists r,
        perform Samples.agreeable (OpExec "VACUUM") Samples.fresh
          = (Returned (Rejected r), Samples.fresh) /\ NotOpen r)
  /\ (exists r,
        close_fn Samples.agreeable Samples.resolving Samples.fresh
          = (Returned (Rejected r), Samples.fresh) /\ NotOpen r).
Proof.
  split; [left; reflexivity|].
  destruct (not_open_rejects Samples.agreeable Samples.fresh
              (or_introl eq_refl)) as [Hops Hclose].
  split.
  - apply (Hops (OpExec "VACUUM")); [reflexivity | exact I].
  - apply Hclose.
Defined.

(** C5.  [open] and [close()] are atomic on failure.  When the driver
    reports an error while opening, [open] rejects with that error and
    the handle stays as it was, without a connection; when the driver
    reports an error while closing, [close()] rejects with that error and
    the handle stays as it was, its connection attached. *)
Theorem open_close_atomic sqlite w e :
  (forall file mode,
     db (this w) = None ->
     typeof mode = "undefined" \/ typeof mode = "number" ->
     fails_with sqlite (issued w)
       (NewDatabase file (mode_passed sqlite mode)) e ->
     exists w', open sqlite file mode w = (Rejected e, w')
                /\ this w' = this w /\ db (this w') = None)
  /\ (forall c,
        db (this w) = Some c ->
        fails_with sqlite (issued w) (DbClose c) e ->
        exists w', close sqlite w = (Rejected e, w')
                   /\ this w' = this w /\ db (this w') = Some c).
Proof.
  split.
  - intros file mode Hdb Hmode (cb & Hcb & <- & Herr).
    unfold open. rewrite new_promise_eq.
    unfold open_settles, mode_passed in *.
    assert (Hex : forall m,
              respond sqlite (issued w) (NewDatabase file m) = [cb] ->
              open_executor sqlite file m w =
                ([SReject (cb_err cb)],
                 {| this := this w;
                    issued := issued w ++ [NewDatabase file m];
                    invoked := invoked w |})).
    { intros m Hm. unfold open_executor. rewrite Hdb.
      rewrite (adapt_answer _ _ _ _ _ Hm).
      unfold open_callback. rewrite Herr. reflexivity. }
    destruct Hmode as [Hu | Hn].
    + rewrite Hu in *. simpl in *. rewrite (Hex _ Hcb). simpl. eauto.
    + rewrite Hn in *. simpl in *. rewrite (Hex _ Hcb). simpl. eauto.
  - intros c Hdb (cb & Hcb & <- & Herr).
    unfold close. rewrite new_promise_eq. unfold close_settles.
    rewrite Hdb. rewrite (adapt_answer _ _ _ _ _ Hcb).
    unfold close_callback. rewrite Herr. simpl. eauto.
Qed.

Lemma open_close_atomic_witness :
  (exists w', open Samples.locked "test.db" VUndefined Samples.fresh
                = (Rejected Samples.busy, w')
              /\ this w' = this Samples.fresh /\ db (this w') = None)
  /\ (exists w', close Samples.locked Samples.opened
                   = (Rejected Samples.busy, w')
                 /\ this w' = this Samples.opened
                 /\ db (this w') = Some 0%nat).
Proof.
  split.
  - apply (proj1 (open_close_atomic Samples.locked Samples.fresh Samples.busy)
             "test.db" VUndefined).
    + reflexivity.
    + left; reflexivity.
    + exists (Samples.failing Samples.busy). repeat split; reflexivity.
  - apply (proj2 (open_close_atomic Samples.locked Samples.opened Samples.busy)
             0%nat).
    + reflexivity.
    + exists (Samples.failing Samples.busy). repeat split; reflexivity.
Defined.

(** *** Driver errors *)

Lemma skipn_length_app {A} (l more : list A) :
  skipn (List.length l) (l ++ more) = more.
Proof. induction l; simpl; auto. Qed.

Lemma skipn_length_self {A} (l : list A) : skipn (List.length l) l = [].
Proof. induction l; simpl; auto. Qed.

Lemma adapt_issued d c k w :
  issued (snd (adapt d c k w)) = (issued w ++ [c])%list.
Proof.
  unfold adapt, issue. simpl.
  destruct (deliver k (respond d (issued w) c) (this w)); reflexivity.
Qed.

(** An adapted call that is the only call issued and is answered once. *)
Lemma adapt_sole_call d c0 k w c cb :
  skipn (List.length (issued w)) (issued (snd (adapt d c0 k w))) = [c] ->
  respond d (issued w) c = [cb] ->
  fst (adapt d c0 k w) = [fst (k cb (this w))].
Proof.
  rewrite adapt_issued, skipn_length_app. intros H Hcb.
  inversion H; subst c0. now rewrite (adapt_answer _ _ _ _ _ Hcb).
Qed.

Lemma no_call_issued {w : World} {c : DriverCall} {P : Prop} :
  skipn (List.length (issued w)) (issued w) = [c] -> P.
Proof. rewrite skipn_length_self. discriminate. Qed.

Ltac unfold_operations :=
  unfold DatabaseClass.open, DatabaseClass.close, DatabaseClass.run,
    DatabaseClass.get, DatabaseClass.all, DatabaseClass.each,
    DatabaseClass.exec, DatabaseClass.prepare,
    StatementClass.bind, StatementClass.reset, StatementClass.finalize,
    StatementClass.run, StatementClass.get, StatementClass.all,
    StatementClass.each, returned in *.

Ltac unfold_executors :=
  unfold open_settles, open_executor, close_settles, run_settles,
    get_settles, all_settles, each_settles, exec_settles, prepare_settles,
    promise_reject,
    StatementClass.bind_settles, StatementClass.reset_settles,
    StatementClass.finalize_settles, StatementClass.run_settles,
    StatementClass.get_settles, StatementClass.all_settles,
    StatementClass.each_settles in *.

(** The settle calls of an operation whose one driver call is answered
    once with an error: one [reject] with that error, except for [reset],
    whose callback resolves. *)
Lemma settle_calls_on_error sqlite o w e :
  well_called o ->
  reports_error sqlite o w e ->
  settle_calls sqlite o w =
    match o with
    | OpReset self => [SResolve (VStatement (StatementClass.statement self))]
    | _ => [SReject e]
    end.
Proof.
  intros Hcall (c & cb & Hcalls & Hcb & <- & Herr).
  unfold settle_calls, calls_of in *.
  destruct o; simpl in *; unfold_operations;
    try rewrite (ends_in_function_guard _ Hcall) in Hcalls;
    rewrite new_promise_eq in Hcalls; simpl in Hcalls;
    unfold_executors;
    repeat match goal with
           | H : context [if ?b then _ else _] |- _ => destruct b
           | H : context [match db ?h with _ => _ end] |- _ => destruct (db h)
           end;
    simpl in Hcalls;
    try solve [exact (no_call_issued Hcalls)];
    rewrite (adapt_sole_call _ _ _ _ _ _ Hcalls Hcb);
    unfold settle_with, open_callback, close_callback,
      StatementClass.reset_callback;
    try rewrite Herr; reflexivity.
Qed.

(** C6, as amended.  When the driver reports an error to the callback of
    an operation, the promise of [open], [close], [run], [get], [all],
    [each], [exec], [prepare] and of a Statement's [bind], [finalize],
    [run], [get], [all], [each] rejects with that very error.  [reset] is
    the exception: its callback takes no argument, and its promise
    resolves with the Statement. *)
Theorem driver_errors_propagate sqlite o w e :
  well_called o ->
  reports_error sqlite o w e ->
  (is_reset o = false -> fst (perform sqlite o w) = Returned (Rejected e))
  /\ (forall self, o = OpReset self ->
        fst (perform sqlite o w)
          = Returned (Fulfilled (VStatement (StatementClass.statement self)))).
Proof.
  intros Hcall Herr.
  pose proof (settle_calls_on_error sqlite o w e Hcall Herr) as Hs.
  assert (Hp : fst (perform sqlite o w)
               = Returned (settle_state (settle_calls sqlite o w))).
  { unfold settle_calls.
    destruct o; simpl in *; unfold_operations;
      try rewrite (ends_in_function_guard _ Hcall);
      rewrite new_promise_eq; reflexivity. }
  rewrite Hp, Hs. split.
  - intros Hr. destruct o; try discriminate; reflexivity.
  - intros self ->. reflexivity.
Qed.

Lemma driver_errors_propagate_witness :
  reports_error Samples.locked (OpExec "VACUUM") Samples.opened Samples.busy
  /\ fst (perform Samples.locked (OpExec "VACUUM") Samples.opened)
     = Returned (Rejected Samples.busy).
Proof.
  assert (H : reports_error Samples.locked (OpExec "VACUUM") Samples.opened
                Samples.busy).
  { exists (DbExec 0%nat "VACUUM"), (Samples.failing Samples.busy).
    repeat split; reflexivity. }
  split; [exact H|].
  apply (proj1 (driver_errors_propagate Samples.locked (OpExec "VACUUM")
                  Samples.opened Samples.busy I H)).
  reflexivity.
Defined.

(** C6, as stated, fails at [reset]: the driver hands the error
    [SQLITE_BUSY] to the callback of [reset] on a prepared statement, and
    the promise resolves with the Statement instead of rejecting. *)
Lemma reset_ignores_driver_error :
  reports_error Samples.locked (OpReset Samples.insert_stmt) Samples.prepared
    Samples.busy
  /\ fst (perform Samples.locked (OpReset Samples.insert_stmt) Samples.prepared)
     = Returned (Fulfilled (VStatement 1%nat))
  /\ fst (perform Samples.locked (OpReset Samples.insert_stmt) Samples.prepared)
     <> Returned (Rejected Samples.busy).
Proof.
  split; [|split].
  - exists (StReset 1%nat), (Samples.failing Samples.busy).
    repeat split; reflexivity.
  - reflexivity.
  - discriminate.
Qed.

(** *** The guard of [each] *)

Lemma guard_without_function args :
  ~ ends_in_function args -> no_trailing_function args = true.
Proof.
  intros Hno. unfold no_trailing_function.
  induction args as [|a init _] using rev_ind; [reflexivity|].
  rewrite List.last_last.
  destruct a; try (apply Bool.orb_true_r).
  exfalso. apply Hno. now exists init, id.
Qed.

(** C7.  When the argument list does not end in a function, the empty
    list included, [each] throws a [TypeError] (InvalidArgument) at once,
    on a Database and on a Statement alike: no promise is returned, the
    handle is not looked at and nothing is issued to the driver. *)
Theorem each_requires_function sqlite self args w :
  ~ ends_in_function args ->
  (DatabaseClass.each sqlite args w
     = (Threw (VErr KTypeError "Database.each: last arg is not a function"), w)
   /\ InvalidArgument (VErr KTypeError "Database.each: last arg is not a function"))
  /\ (StatementClass.each sqlite self args w
        = (Threw (VErr KTypeError "Statement.each: last arg is not a function"), w)
      /\ InvalidArgument
           (VErr KTypeError "Statement.each: last arg is not a function")).
Proof.
  intros Hno.
  unfold DatabaseClass.each, StatementClass.each.
  rewrite (guard_without_function args Hno).
  repeat split; eexists; reflexivity.
Qed.

Lemma each_requires_function_witness :
  ~ ends_in_function [VStr "SELECT * FROM t"; VNum (JInt 3)]
  /\ DatabaseClass.each Samples.agreeable
       [VStr "SELECT * FROM t"; VNum (JInt 3)] Samples.fresh
     = (Threw (VErr KTypeError "Database.each: last arg is not a function"),
        Samples.fresh)
  /\ StatementClass.each Samples.agreeable Samples.insert_stmt
       [VStr "SELECT * FROM t"; VNum (JInt 3)] Samples.fresh
     = (Threw (VErr KTypeError "Statement.each: last arg is not a function"),
        Samples.fresh).
Proof.
  assert (H : ~ ends_in_function [VStr "SELECT * FROM t"; VNum (JInt 3)]).
  { intros (init & id & E).
    destruct init as [|a [|b [|c rest]]]; simpl in E; discriminate. }
  split; [exact H|].
  destruct (each_requires_function Samples.agreeable Samples.insert_stmt
              [VStr "SELECT * FROM t"; VNum (JInt 3)] Samples.fresh H)
    as [[Hd _] [Hs _]].
  split; assumption.
Defined.

(** *** Transactions *)

(** The wrapper's call of a caller's function is counted. *)
Lemma call_is_counted (fn : UserFn) (w : World) :
  exists w0, call fn w = fn w0
             /\ invoked w0 = S (invoked w)
             /\ this w0 = this w /\ issued w0 = issued w.
Proof. eexists; split; [reflexivity|]. simpl; auto. Qed.

Lemma exec_answer sqlite sql w c cb :
  db (this w) = Some c ->
  respond sqlite (issued w) (DbExec c sql) = [cb] ->
  exec sqlite sql w =
    (if truthy (cb_err cb) then Rejected (cb_err cb) else Fulfilled VDatabase,
     {| this := this w;
        issued := issued w ++ [DbExec c sql];
        invoked := invoked w |}).
Proof.
  intros Hdb Hcb. unfold exec. rewrite new_promise_eq.
  unfold exec_settles. rewrite Hdb, (adapt_answer _ _ _ _ _ Hcb).
  unfold settle_with. destruct (truthy (cb_err cb)); reflexivity.
Qed.

Lemma close_answer sqlite w c cb :
  db (this w) = Some c ->
  respond sqlite (issued w) (DbClose c) = [cb] ->
  close sqlite w =
    (if truthy (cb_err cb) then Rejected (cb_err cb) else Fulfilled VDatabase,
     {| this := if truthy (cb_err cb) then this w
                else {| db := None; filename := filename (this w) |};
        issued := issued w ++ [DbClose c];
        invoked := invoked w |}).
Proof.
  intros Hdb Hcb. unfold close. rewrite new_promise_eq.
  unfold close_settles. rewrite Hdb, (adapt_answer _ _ _ _ _ Hcb).
  unfold close_callback. destruct (truthy (cb_err cb)); reflexivity.
Qed.

(** C10.  On a handle with no connection attached, [transaction(fn)]
    rejects with a NotOpen error (that of [exec]); [fn] is not called and
    nothing, not even [BEGIN TRANSACTION], is issued to the driver. *)
Theorem transaction_needs_connection sqlite fn w :
  db (this w) = None ->
  exists r w',
    transaction sqlite fn w = (Rejected r, w')
    /\ NotOpen r
    /\ invoked w' = invoked w
    /\ issued w' = issued w
    /\ w' = w.
Proof.
  intros Hdb. unfold transaction, exec. rewrite new_promise_eq.
  unfold exec_settles. rewrite Hdb. simpl.
  eexists; eexists; split; [reflexivity|].
  split; [apply (not_open_intro "exec") | auto].
Qed.

Lemma transaction_needs_connection_witness :
  db (this Samples.fresh) = None
  /\ exists r w',
       transaction Samples.agreeable Samples.resolving Samples.fresh
         = (Rejected r, w')
       /\ NotOpen r
       /\ invoked w' = invoked Samples.fresh
       /\ issued w' = issued Samples.fresh
       /\ w' = Samples.fresh.
Proof.
  split; [reflexivity|].
  apply (transaction_needs_connection Samples.agreeable Samples.resolving
           Samples.fresh).
  reflexivity.
Defined.

(** C1, as amended.  [transaction(fn)] on an open handle: when
    [BEGIN TRANSACTION] succeeds and [fn] returns a promise that rejects
    with [err], the handle still holding a connection, then
    [ROLLBACK TRANSACTION] is the next statement issued; if the rollback
    succeeds the transaction rejects with [err], and if the rollback fails
    with [e] the transaction rejects with [e]. *)
Theorem transaction_rolls_back sqlite fn w c err w1 c1 :
  db (this w) = Some c ->
  succeeds sqlite (issued w) (DbExec c "BEGIN TRANSACTION") ->
  call fn (snd (exec sqlite "BEGIN TRANSACTION" w))
    = (Returned (Rejected err), w1) ->
  db (this w1) = Some c1 ->
  (succeeds sqlite (issued w1) (DbExec c1 "ROLLBACK TRANSACTION") ->
   exists w',
     transaction sqlite fn w = (Rejected err, w')
     /\ issued w' = (issued w1 ++ [DbExec c1 "ROLLBACK TRANSACTION"])%list)
  /\ (forall e,
        fails_with sqlite (issued w1) (DbExec c1 "ROLLBACK TRANSACTION") e ->
        exists w',
          transaction sqlite fn w = (Rejected e, w')
          /\ issued w' = (issued w1 ++ [DbExec c1 "ROLLBACK TRANSACTION"])%list).
Proof.
  intros Hdb (cb & Hcb & Hok) Hfn Hdb1.
  unfold transaction.
  rewrite (exec_answer _ _ _ _ _ Hdb Hcb) in *. rewrite Hok in *.
  simpl in Hfn. simpl. rewrite Hfn. simpl.
  split.
  - intros (cbr & Hcbr & Hokr).
    rewrite (exec_answer _ _ _ _ _ Hdb1 Hcbr), Hokr. simpl. eauto.
  - intros e (cbr & Hcbr & <- & Herr).
    rewrite (exec_answer _ _ _ _ _ Hdb1 Hcbr), Herr. simpl. eauto.
Qed.

Lemma transaction_rolls_back_witness :
  (exists w',
     transaction Samples.agreeable Samples.rejecting Samples.opened
       = (Rejected Samples.boom, w')
     /\ issued w'
        = [NewDatabase "test.db" (VNum (JInt 6));
           DbExec 0%nat "BEGIN TRANSACTION";
           DbExec 0%nat "ROLLBACK TRANSACTION"])
  /\ (exists w',
        transaction Samples.no_rollback Samples.rejecting Samples.opened
          = (Rejected Samples.busy, w')
        /\ issued w'
           = [NewDatabase "test.db" (VNum (JInt 6));
              DbExec 0%nat "BEGIN TRANSACTION";
              DbExec 0%nat "ROLLBACK TRANSACTION"]).
Proof.
  split.
  - apply (proj1 (transaction_rolls_back Samples.agreeable Samples.rejecting
                    Samples.opened 0%nat Samples.boom
                    (snd (call Samples.rejecting
                            (snd (exec Samples.agreeable "BEGIN TRANSACTION"
                                    Samples.opened))))
                    0%nat eq_refl
                    (ex_intro _ Samples.ok (conj eq_refl eq_refl))
                    eq_refl eq_refl)).
    exists Samples.ok. split; reflexivity.
  - apply (proj2 (transaction_rolls_back Samples.no_rollback Samples.rejecting
                    Samples.opened 0%nat Samples.boom
                    (snd (call Samples.rejecting
                            (snd (exec Samples.no_rollback "BEGIN TRANSACTION"
                                    Samples.opened))))
                    0%nat eq_refl
                    (ex_intro _ Samples.ok (conj eq_refl eq_refl))
                    eq_refl eq_refl) Samples.busy).
    exists (Samples.failing Samples.busy). repeat split; reflexivity.
Defined.

(** C1, as stated, fails when the rollback fails: on an open handle
    [BEGIN TRANSACTION] succeeds, [fn] rejects with [boom], the driver
    answers [ROLLBACK TRANSACTION] with [SQLITE_BUSY], and the
    transaction rejects with [SQLITE_BUSY], not with [boom]. *)
Lemma transaction_rollback_failure_wins :
  db (this Samples.opened) = Some 0%nat
  /\ succeeds Samples.no_rollback (issued Samples.opened)
       (DbExec 0%nat "BEGIN TRANSACTION")
  /\ fst (call Samples.rejecting
            (snd (exec Samples.no_rollback "BEGIN TRANSACTION" Samples.opened)))
     = Returned (Rejected Samples.boom)
  /\ issued (snd (transaction Samples.no_rollback Samples.rejecting
                    Samples.opened))
     = [NewDatabase "test.db" (VNum (JInt 6));
        DbExec 0%nat "BEGIN TRANSACTION";
        DbExec 0%nat "ROLLBACK TRANSACTION"]
  /\ fst (transaction Samples.no_rollback Samples.rejecting Samples.opened)
     = Rejected Samples.busy
  /\ fst (transaction Samples.no_rollback Samples.rejecting Samples.opened)
     <> Rejected Samples.boom.
Proof.
  repeat split; try reflexivity.
  - exists Samples.ok. split; reflexivity.
  - discriminate.
Qed.

(** *** Scoped close *)

(** C2, as amended.  [close(fn)] on an open handle, for [fn] returning a
    promise and leaving a connection on the handle: the driver is asked
    to close that connection on both exit paths of [fn].  When the close
    succeeds the handle is left without a connection and [close(fn)]
    resolves with the result of [fn], or rejects with the error [fn]
    rejected with.  When [fn] has rejected and the close fails with [e],
    [close(fn)] rejects with [e] and the connection stays attached. *)
Theorem close_fn_releases sqlite fn w c p w1 c1 :
  db (this w) = Some c ->
  call fn w = (Returned p, w1) ->
  db (this w1) = Some c1 ->
  (succeeds sqlite (issued w1) (DbClose c1) ->
     (forall v, p = Fulfilled v ->
        exists w', close_fn sqlite fn w = (Returned (Fulfilled v), w')
                   /\ db (this w') = None
                   /\ issued w' = (issued w1 ++ [DbClose c1])%list)
     /\ (forall err, p = Rejected err ->
           exists w', close_fn sqlite fn w = (Returned (Rejected err), w')
                      /\ db (this w') = None
                      /\ issued w' = (issued w1 ++ [DbClose c1])%list))
  /\ (forall err e,
        p = Rejected err ->
        fails_with sqlite (issued w1) (DbClose c1) e ->
        exists w', close_fn sqlite fn w = (Returned (Rejected e), w')
                   /\ db (this w') = Some c1
                   /\ issued w' = (issued w1 ++ [DbClose c1])%list).
Proof.
  intros Hdb Hfn Hdb1.
  unfold close_fn. rewrite Hdb, Hfn.
  split; [intros (cb & Hcb & Hok); split|].
  - intros v ->. simpl.
    rewrite (close_answer _ _ _ _ Hdb1 Hcb), Hok. unfold returned. simpl. eauto.
  - intros err ->. simpl.
    rewrite (close_answer _ _ _ _ Hdb1 Hcb), Hok. unfold returned. simpl. eauto.
  - intros err e -> (cb & Hcb & <- & Herr). simpl.
    rewrite (close_answer _ _ _ _ Hdb1 Hcb), Herr. unfold returned. simpl. eauto.
Qed.

Lemma close_fn_releases_witness :
  (exists w',
     close_fn Samples.agreeable Samples.resolving Samples.opened
       = (Returned (Fulfilled (VNum (JInt 42))), w')
     /\ db (this w') = None
     /\ issued w' = [NewDatabase "test.db" (VNum (JInt 6)); DbClose 0%nat])
  /\ (exists w',
        close_fn Samples.no_close Samples.rejecting Samples.opened
          = (Returned (Rejected Samples.busy), w')
        /\ db (this w') = Some 0%nat
        /\ issued w' = [NewDatabase "test.db" (VNum (JInt 6)); DbClose 0%nat]).
Proof.
  split.
  - apply (proj1 (proj1 (close_fn_releases Samples.agreeable Samples.resolving
                           Samples.opened 0%nat (Fulfilled (VNum (JInt 42)))
                           (snd (call Samples.resolving Samples.opened)) 0%nat
                           eq_refl eq_refl eq_refl)
                    (ex_intro _ Samples.ok (conj eq_refl eq_refl)))
             (VNum (JInt 42)) eq_refl).
  - apply (proj2 (close_fn_releases Samples.no_close Samples.rejecting
                    Samples.opened 0%nat (Rejected Samples.boom)
                    (snd (call Samples.rejecting Samples.opened)) 0%nat
                    eq_refl eq_refl eq_refl)
             Samples.boom Samples.busy eq_refl).
    exists (Samples.failing Samples.busy). repeat split; reflexivity.
Defined.

(** C2, as stated, fails when the driver cannot close: on an open handle
    [fn] rejects with [boom], the driver answers [close] with
    [SQLITE_BUSY], and [close(fn)] rejects with [SQLITE_BUSY] while the
    connection is still attached. *)
Lemma close_fn_keeps_connection_on_close_failure :
  db (this Samples.opened) = Some 0%nat
  /\ fst (call Samples.rejecting Samples.opened)
     = Returned (Rejected Samples.boom)
  /\ fst (close_fn Samples.no_close Samples.rejecting Samples.opened)
     = Returned (Rejected Samples.busy)
  /\ db (this (snd (close_fn Samples.no_close Samples.rejecting
                      Samples.opened)))
     = Some 0%nat
  /\ fst (close_fn Samples.no_close Samples.rejecting Samples.opened)
     <> Returned (Rejected Samples.boom)
  /\ db (this (snd (close_fn Samples.no_close Samples.rejecting
                      Samples.opened)))
     <> None.
Proof.
  repeat split; try reflexivity; discriminate.
Qed.

(** *** The query helper *)

Import QueryHelper.

Lemma get_answer sqlite args w c cb :
  db (this w) = Some c ->
  respond sqlite (issued w) (DbGet c args) = [cb] ->
  truthy (cb_err cb) = false ->
  DatabaseClass.get sqlite args w =
    (Fulfilled (cb_arg cb),
     {| this := this w;
        issued := issued w ++ [DbGet c args];
        invoked := invoked w |}).
Proof.
  intros Hdb Hcb Hok. unfold DatabaseClass.get. rewrite new_promise_eq.
  unfold get_settles. rewrite Hdb, (adapt_answer _ _ _ _ _ Hcb).
  unfold settle_with. rewrite Hok. reflexivity.
Qed.

Lemma all_answer sqlite args w c cb :
  db (this w) = Some c ->
  respond sqlite (issued w) (DbAll c args) = [cb] ->
  truthy (cb_err cb) = false ->
  DatabaseClass.all sqlite args w =
    (Fulfilled (cb_arg cb),
     {| this := this w;
        issued := issued w ++ [DbAll c args];
        invoked := invoked w |}).
Proof.
  intros Hdb Hcb Hok. unfold DatabaseClass.all. rewrite new_promise_eq.
  unfold all_settles. rewrite Hdb, (adapt_answer _ _ _ _ _ Hcb).
  unfold settle_with. rewrite Hok. reflexivity.
Qed.

(** [Math.ceil((allcount || 0) / pagecap)] on a count [n >= 0] and a page
    capacity [p > 0] is the least [q] with [n <= p * q]. *)
Lemma pagecount_is_ceiling coerce n p :
  0 <= n -> 0 < p ->
  exists q,
    js_ceil_div (to_number coerce (js_or (VNum (JInt n)) (VNum (JInt 0))))
      (JInt p) = JInt q
    /\ p * (q - 1) < n <= p * q.
Proof.
  intros Hn Hp.
  assert (Hpz : (p =? 0) = false) by (apply Z.eqb_neq; lia).
  assert (Hpn : (p <? 0) = false) by (apply Z.ltb_ge; lia).
  unfold js_or, truthy.
  destruct (Z.eqb_spec n 0) as [-> | Hnz]; simpl.
  - unfold js_ceil_div. simpl. rewrite Hpz, Hpn. simpl.
    exists 0. split; [reflexivity|lia].
  - unfold js_ceil_div. simpl. rewrite Hpz.
    destruct (Z.eqb_spec n 0); [lia|]. simpl.
    pose proof (Z.div_mod (- n) p ltac:(lia)) as Hdm.
    pose proof (Z.mod_pos_bound (- n) p Hp) as Hb.
    destruct (Z.eqb_spec (- (- n / p)) 0) as [Hq | Hq]; [nia|].
    exists (- (- n / p)). split; [reflexivity | nia].
Qed.

Lemma foo_statements :
  count_sql Samples.foo_options "items" ["name"] = Samples.foo_count_sql
  /\ paged_sql Samples.foo_options "items" ["name"] "*" = Samples.foo_rows_sql
  /\ pagecap_of Samples.foo_options = JInt 5
  /\ page_of Samples.foo_options = JInt 2.
Proof. repeat split; reflexivity. Qed.

(** C8.  The query helper with options [{key: "foo", page: "2",
    pagecap: "5"}], table [items], keys [["name"]] and select [*], on an
    open handle whose driver answers the count with a row [{count: n}]:
    it issues the count statement
    [SELECT COUNT( * ) AS count FROM items WHERE (name LIKE "%foo%")],
    then the row statement
    [SELECT * FROM items WHERE (name LIKE "%foo%") LIMIT 5 OFFSET 5],
    and resolves with a result whose [allcount] is [n] and whose
    [pagecount] is [n / 5] rounded up. *)
Theorem query_foo_page_two sqlite coerce w c cbg fields n cba :
  db (this w) = Some c ->
  respond sqlite (issued w) (DbGet c [VStr Samples.foo_count_sql]) = [cbg] ->
  truthy (cb_err cbg) = false ->
  cb_arg cbg = VObj fields ->
  lookup_field "count" fields = VNum (JInt n) ->
  0 <= n ->
  respond sqlite (issued w ++ [DbGet c [VStr Samples.foo_count_sql]])
    (DbAll c [VStr Samples.foo_rows_sql]) = [cba] ->
  truthy (cb_err cba) = false ->
  exists ret w' pagecount,
    queryWithSelect sqlite coerce (Some Samples.foo_options) "items" ["name"]
      "*" w = (Fulfilled (VObj ret), w')
    /\ issued w' = (issued w ++ [DbGet c [VStr Samples.foo_count_sql];
                                 DbAll c [VStr Samples.foo_rows_sql]])%list
    /\ lookup_field "rows" ret = cb_arg cba
    /\ lookup_field "allcount" ret = VNum (JInt n)
    /\ lookup_field "pagecap" ret = VNum (JInt 5)
    /\ lookup_field "pagecount" ret = VNum (JInt pagecount)
    /\ 5 * (pagecount - 1) < n <= 5 * pagecount.
Proof.
  intros Hdb Hcbg Hokg Hrow Hcount Hn Hcba Hoka.
  destruct foo_statements as (Ecount & Erows & Ecap & Epage).
  destruct (pagecount_is_ceiling coerce n 5 Hn ltac:(lia)) as (q & Hq & Hceil).
  unfold queryWithSelect. rewrite Hdb.
  change (given (page Samples.foo_options)) with true. cbv iota.
  rewrite Ecount, Erows, Ecap, Epage.
  rewrite (get_answer _ _ _ _ _ Hdb Hcbg Hokg).
  unfold await at 1. rewrite Hrow. unfold get_prop. rewrite Hcount.
  rewrite Hq.
  match goal with
  | |- context [DatabaseClass.all sqlite ?a ?w0] =>
      rewrite (all_answer sqlite a w0 c cba Hdb Hcba Hoka)
  end.
  unfold await.
  eexists. eexists. exists q.
  split; [reflexivity|].
  cbn [issued this invoked]. rewrite <- List.app_assoc.
  repeat split; try reflexivity; lia.
Qed.

Lemma query_foo_page_two_witness :
  exists ret w' pagecount,
    queryWithSelect (Samples.counting 11) Samples.nan_coercion
      (Some Samples.foo_options) "items" ["name"] "*" Samples.opened
      = (Fulfilled (VObj ret), w')
    /\ issued w' = (issued Samples.opened
                      ++ [DbGet 0%nat [VStr Samples.foo_count_sql];
                          DbAll 0%nat [VStr Samples.foo_rows_sql]])%list
    /\ lookup_field "rows" ret = VArr [VObj [("name", VStr "foo")]]
    /\ lookup_field "allcount" ret = VNum (JInt 11)
    /\ lookup_field "pagecap" ret = VNum (JInt 5)
    /\ lookup_field "pagecount" ret = VNum (JInt pagecount)
    /\ 5 * (pagecount - 1) < 11 <= 5 * pagecount.
Proof.
  apply (query_foo_page_two (Samples.counting 11) Samples.nan_coercion
           Samples.opened 0%nat
           {| cb_err := VNull; cb_lastID := VUndefined;
              cb_changes := VUndefined;
              cb_arg := VObj [("count", VNum (JInt 11))] |}
           [("count", VNum (JInt 11))] 11
           {| cb_err := VNull; cb_lastID := VUndefined;
              cb_changes := VUndefined;
              cb_arg := VArr [VObj [("name", VStr "foo")]] |});
    try reflexivity.
  lia.
Defined.

(** The count statement never mentions [options.condition]. *)
Lemma count_sql_ignores_condition k c1 c2 pg cap table keys :
  count_sql {| key := k; condition := c1; page := pg; pagecap := cap |}
    table keys
  = count_sql {| key := k; condition := c2; page := pg; pagecap := cap |}
      table keys.
Proof. reflexivity. Qed.

(** C9 fails on the code.  With options [{condition: "age > 3",
    page: "1"}], table [items] and no keys, the rows are fetched under
    [WHERE age > 3] and counted under [WHERE tile_data IS NOT NULL]: the
    count statement leaves out a condition given through
    [options.condition] and falls back to the fixed filter although a
    condition exists. *)
Theorem count_leaves_out_options_condition :
  issued (snd (queryWithSelect (Samples.counting 11) Samples.nan_coercion
                 (Some Samples.age_options) "items" [] "*" Samples.opened))
  = [NewDatabase "test.db" (VNum (JInt 6));
     DbGet 0%nat
       [VStr "SELECT COUNT(*) AS count FROM items WHERE tile_data IS NOT NULL"];
     DbAll 0%nat [VStr "SELECT * FROM items WHERE age > 3 LIMIT 10 OFFSET 0"]].
Proof. reflexivity. Qed.

(** *** Remarks on the paths the amended statements leave out *)

(** A caller's function that throws before it returns a promise. *)
Remark close_fn_on_throw sqlite fn w c e w1 :
  db (this w) = Some c ->
  call fn w = (Threw e, w1) ->
  close_fn sqlite fn w = (Threw e, w1).
Proof. intros Hdb Hfn. unfold close_fn. now rewrite Hdb, Hfn. Qed.

Remark transaction_on_throw sqlite fn w c e w1 :
  db (this w) = Some c ->
  succeeds sqlite (issued w) (DbExec c "BEGIN TRANSACTION") ->
  call fn (snd (exec sqlite "BEGIN TRANSACTION" w)) = (Threw e, w1) ->
  transaction sqlite fn w = (Rejected e, w1).
Proof.
  intros Hdb (cb & Hcb & Hok) Hfn. unfold transaction.
  rewrite (exec_answer _ _ _ _ _ Hdb Hcb) in *. rewrite Hok in *.
  simpl in Hfn. simpl. now rewrite Hfn.
Qed.

(** When [fn] has resolved and the driver refuses to close, [close(fn)]
    asks the driver a second time, from its [catch] handler. *)
Example close_fn_closes_twice :
  close_fn Samples.no_close Samples.resolving Samples.opened
  = (Returned (Rejected Samples.busy),
     {| this := {| db := Some 0%nat; filename := Some "test.db" |};
        issued := [NewDatabase "test.db" (VNum (JInt 6));
                   DbClose 0%nat; DbClose 0%nat];
        invoked := 1 |}).
Proof. reflexivity. Qed.

(** *** Checks of the JavaScript primitives *)

Example parseInt10_examples :
  parseInt10 "2" = JInt 2
  /\ parseInt10 "  -12px" = JInt (-12)
  /\ parseInt10 "+7" = JInt 7
  /\ parseInt10 "-0" = JNegZero
  /\ parseInt10 "0x10" = JInt 0
  /\ parseInt10 "five" = JNaN
  /\ parseInt10 "" = JNaN.
Proof. repeat split; reflexivity. Qed.

Example num_to_string_examples :
  num_to_string (JInt 10) = "10"
  /\ num_to_string (JInt (-5)) = "-5"
  /\ num_to_string (JInt 0) = "0"
  /\ num_to_string JNaN = "NaN".
Proof. repeat split; reflexivity. Qed.

Example js_ceil_div_examples :
  js_ceil_div (JInt 11) (JInt 5) = JInt 3
  /\ js_ceil_div (JInt 10) (JInt 5) = JInt 2
  /\ js_ceil_div (JInt 0) (JInt 5) = JInt 0
  /\ js_ceil_div (JInt 3) (JInt 0) = JInf false
  /\ js_ceil_div (JInt 3) JNegZero = JInf true
  /\ js_ceil_div (JInt 0) (JInt 0) = JNaN
  /\ js_ceil_div (JInt 3) (JInt (-5)) = JNegZero.
Proof. repeat split; reflexivity. Qed.

Example default_mode_is_6 :
  default_mode Samples.agreeable = VNum (JInt 6).
Proof. reflexivity. Qed.

(* ================================================================== *)
(** ** Further properties of class Database *)
(* ================================================================== *)

(** *** Opening and closing *)

Lemma open_answer sqlite file mode w cb :
  db (this w) = None ->
  typeof mode = "undefined" \/ typeof mode = "number" ->
  respond sqlite (issued w) (NewDatabase file (mode_passed sqlite mode)) = [cb] ->
  open sqlite file mode w =
    (if truthy (cb_err cb) then Rejected (cb_err cb) else Fulfilled VDatabase,
     {| this := if truthy (cb_err cb) then this w
                else {| db := Some (List.length (issued w));
                        filename := Some file |};
        issued := issued w ++ [NewDatabase file (mode_passed sqlite mode)];
        invoked := invoked w |}).
Proof.
  intros Hdb Hmode Hcb. unfold open. rewrite new_promise_eq.
  unfold open_settles, mode_passed in *.
  assert (Hex : forall m,
            respond sqlite (issued w) (NewDatabase file m) = [cb] ->
            open_executor sqlite file m w =
              ([fst (open_callback (List.length (issued w)) file cb (this w))],
               {| this := snd (open_callback (List.length (issued w)) file cb
                                 (this w));
                  issued := issued w ++ [NewDatabase file m];
                  invoked := invoked w |})).
  { intros m Hm. unfold open_executor. rewrite Hdb.
    now rewrite (adapt_answer _ _ _ _ _ Hm). }
  destruct Hmode as [Hm | Hm]; rewrite Hm in *; simpl in *;
    rewrite (Hex _ Hcb); unfold open_callback;
    destruct (truthy (cb_err cb)); reflexivity.
Qed.

(** X1.  [open] on a closed handle, with the mode left out or a number,
    when the driver succeeds: the promise resolves with the handle, the
    handle holds the connection made by this very call and remembers the
    file name, and the driver was called once, with the given mode or,
    when none was given, with [OPEN_READWRITE | OPEN_CREATE]. *)
Theorem open_attaches sqlite w file mode :
  db (this w) = None ->
  typeof mode = "undefined" \/ typeof mode = "number" ->
  succeeds sqlite (issued w) (NewDatabase file (mode_passed sqlite mode)) ->
  exists w' c,
    open sqlite file mode w = (Fulfilled VDatabase, w')
    /\ db (this w') = Some c
    /\ filename (this w') = Some file
    /\ issued w'
       = (issued w ++ [NewDatabase file (mode_passed sqlite mode)])%list
    /\ nth_error (issued w') c
       = Some (NewDatabase file (mode_passed sqlite mode))
    /\ (typeof mode = "undefined" ->
        mode_passed sqlite mode
        = VNum (JInt (js_bitor (OPEN_READWRITE sqlite) (OPEN_CREATE sqlite)))).
Proof.
  intros Hdb Hmode (cb & Hcb & Hok).
  rewrite (open_answer _ _ _ _ _ Hdb Hmode Hcb), Hok.
  eexists. exists (List.length (issued w)).
  split; [reflexivity|]. simpl.
  repeat split.
  - rewrite nth_error_app2 by lia. now rewrite Nat.sub_diag.
  - intros Hu. unfold mode_passed. now rewrite Hu.
Qed.

Lemma open_attaches_witness :
  exists w' c,
    open Samples.agreeable "test.db" VUndefined Samples.fresh
      = (Fulfilled VDatabase, w')
    /\ db (this w') = Some c
    /\ filename (this w') = Some "test.db"
    /\ issued w' = [NewDatabase "test.db" (VNum (JInt 6))]
    /\ nth_error (issued w') c = Some (NewDatabase "test.db" (VNum (JInt 6)))
    /\ (typeof VUndefined = "undefined" ->
        mode_passed Samples.agreeable VUndefined = VNum (JInt 6)).
Proof.
  apply (open_attaches Samples.agreeable Samples.fresh "test.db" VUndefined).
  - reflexivity.
  - left; reflexivity.
  - exists Samples.ok. split; reflexivity.
Defined.

(** X2.  [open] on a handle that already holds a connection (the mode
    left out or a number) rejects with "database is already open"; the
    driver is not called, so no second connection is made, and the handle
    keeps the connection it has. *)
Theorem open_twice_rejects sqlite w file mode c :
  db (this w) = Some c ->
  typeof mode = "undefined" \/ typeof mode = "number" ->
  open sqlite file mode w
  = (Rejected (VErr KError "Database.open: database is already open"), w).
Proof.
  intros Hdb Hmode. unfold open. rewrite new_promise_eq.
  unfold open_settles, open_executor.
  destruct Hmode as [Hm | Hm]; rewrite Hm; simpl; rewrite Hdb; reflexivity.
Qed.

Lemma open_twice_rejects_witness :
  open Samples.agreeable "other.db" (VNum (JInt 1)) Samples.opened
  = (Rejected (VErr KError "Database.open: database is already open"),
     Samples.opened).
Proof.
  apply (open_twice_rejects Samples.agreeable Samples.opened "other.db"
           (VNum (JInt 1)) 0%nat).
  - reflexivity.
  - right; reflexivity.
Defined.

(** X3.  [open] with a mode that is given and is not a number rejects
    with a [TypeError] whatever the state of the handle, before the
    already-open test; the driver is not called. *)
Theorem open_checks_mode sqlite w file mode :
  typeof mode <> "undefined" ->
  typeof mode <> "number" ->
  open sqlite file mode w
  = (Rejected (VErr KTypeError "Database.open: mode is not a number"), w).
Proof.
  intros Hu Hn. unfold open. rewrite new_promise_eq. unfold open_settles.
  destruct (String.eqb_spec (typeof mode) "undefined"); [contradiction|].
  destruct (String.eqb_spec (typeof mode) "number"); [contradiction|].
  reflexivity.
Qed.

Lemma open_checks_mode_witness :
  open Samples.agreeable "test.db" (VStr "rw") Samples.opened
  = (Rejected (VErr KTypeError "Database.open: mode is not a number"),
     Samples.opened).
Proof.
  apply (open_checks_mode Samples.agreeable Samples.opened "test.db"
           (VStr "rw")); discriminate.
Defined.

(** X4.  [Database.open(filename, mode)], the static form, works on a
    handle of its own: whatever handle the caller had, it never rejects
    with "database is already open", and when the driver succeeds it
    resolves with a handle attached to the new connection. *)
Theorem static_open_attaches sqlite w file mode :
  typeof mode = "undefined" \/ typeof mode = "number" ->
  succeeds sqlite (issued w) (NewDatabase file (mode_passed sqlite mode)) ->
  exists w',
    DatabaseMore.static_open sqlite file mode w = (Fulfilled VDatabase, w')
    /\ this w' = {| db := Some (List.length (issued w)); filename := Some file |}
    /\ issued w'
       = (issued w ++ [NewDatabase file (mode_passed sqlite mode)])%list.
Proof.
  intros Hmode (cb & Hcb & Hok). unfold DatabaseMore.static_open.
  rewrite (open_answer sqlite file mode
             (with_this {| db := None; filename := None |} w) cb
             eq_refl Hmode Hcb), Hok.
  eexists. repeat split.
Qed.

Lemma static_open_attaches_witness :
  exists w',
    DatabaseMore.static_open Samples.agreeable "second.db" VUndefined
      Samples.opened = (Fulfilled VDatabase, w')
    /\ this w' = {| db := Some 1%nat; filename := Some "second.db" |}
    /\ issued w' = [NewDatabase "test.db" (VNum (JInt 6));
                    NewDatabase "second.db" (VNum (JInt 6))].
Proof.
  apply (static_open_attaches Samples.agreeable Samples.opened "second.db"
           VUndefined).
  - left; reflexivity.
  - exists Samples.ok. split; reflexivity.
Defined.

(** X5.  Opening and then closing is a round trip on the handle: when the
    driver succeeds both times, [open] followed by [close()] leaves the
    handle without a connection again, and the driver has seen the open
    and then the close of the connection that open made. *)
Theorem open_then_close sqlite w file mode :
  db (this w) = None ->
  typeof mode = "undefined" \/ typeof mode = "number" ->
  succeeds sqlite (issued w) (NewDatabase file (mode_passed sqlite mode)) ->
  succeeds sqlite (issued w ++ [NewDatabase file (mode_passed sqlite mode)])
    (DbClose (List.length (issued w))) ->
  exists w1 w2,
    open sqlite file mode w = (Fulfilled VDatabase, w1)
    /\ close sqlite w1 = (Fulfilled VDatabase, w2)
    /\ db (this w2) = None
    /\ filename (this w2) = Some file
    /\ issued w2
       = (issued w ++ [NewDatabase file (mode_passed sqlite mode);
                       DbClose (List.length (issued w))])%list.
Proof.
  intros Hdb Hmode (cb & Hcb & Hok) (cbc & Hcbc & Hokc).
  rewrite (open_answer _ _ _ _ _ Hdb Hmode Hcb), Hok.
  eexists. eexists. split; [reflexivity|].
  match goal with
  | |- close sqlite ?w1 = _ /\ _ =>
      rewrite (close_answer sqlite w1 (List.length (issued w)) cbc
                 eq_refl Hcbc), Hokc
  end.
  simpl. rewrite <- List.app_assoc. repeat split.
Qed.

Lemma open_then_close_witness :
  exists w1 w2,
    open Samples.agreeable "test.db" VUndefined Samples.fresh
      = (Fulfilled VDatabase, w1)
    /\ close Samples.agreeable w1 = (Fulfilled VDatabase, w2)
    /\ db (this w2) = None
    /\ filename (this w2) = Some "test.db"
    /\ issued w2 = [NewDatabase "test.db" (VNum (JInt 6)); DbClose 0%nat].
Proof.
  apply (open_then_close Samples.agreeable Samples.fresh "test.db" VUndefined).
  - reflexivity.
  - left; reflexivity.
  - exists Samples.ok. split; reflexivity.
  - exists Samples.ok. split; reflexivity.
Defined.

(** *** What the data operations do to the handle and to the driver *)

Lemma deliver_keeps k cbs (h : Database) :
  (forall cb h0, snd (k cb h0) = h0) -> snd (deliver k cbs h) = h.
Proof.
  intros Hk. revert h. induction cbs as [|cb rest IH]; intros h; simpl; auto.
  specialize (Hk cb h). destruct (k cb h) as [s h1]. simpl in Hk. subst h1.
  specialize (IH h). destruct (deliver k rest h). assumption.
Qed.

Lemma adapt_keeps d c k w :
  (forall cb h0, snd (k cb h0) = h0) ->
  this (snd (adapt d c k w)) = this w
  /\ invoked (snd (adapt d c k w)) = invoked w.
Proof.
  intros Hk. unfold adapt, issue. simpl.
  pose proof (deliver_keeps k (respond d (issued w) c) (this w) Hk) as H.
  destruct (deliver k _ (this w)); simpl in *. auto.
Qed.

Lemma settle_with_keeps value cb (h : Database) :
  snd (settle_with value cb h) = h.
Proof. unfold settle_with. destruct (truthy (cb_err cb)); reflexivity. Qed.

Lemma new_promise_snd ex w : snd (new_promise ex w) = snd (ex w).
Proof. now rewrite new_promise_eq. Qed.

(** X6.  Only [open] and [close] touch the handle.  Whatever the driver
    answers, and however often it calls back, every other operation
    ([run], [get], [all], [each], [exec], [prepare] and all operations of
    a Statement) leaves the connection and the file name of the handle
    as they were. *)
Theorem data_operations_keep_handle sqlite o w :
  (forall file mode, o <> OpOpen file mode) ->
  o <> OpClose ->
  this (snd (perform sqlite o w)) = this w.
Proof.
  intros Hopen Hclose.
  destruct o;
    [exfalso; apply (Hopen file mode); reflexivity
    |exfalso; apply Hclose; reflexivity
    |..];
    simpl; unfold_operations;
    try match goal with
        | |- context [no_trailing_function ?a] =>
            destruct (no_trailing_function a); [reflexivity|]
        end;
    simpl; rewrite new_promise_snd; unfold_executors;
    try (destruct (db (this w)); [|reflexivity]);
    apply adapt_keeps; intros;
    first [apply settle_with_keeps | reflexivity].
Qed.

Lemma data_operations_keep_handle_witness :
  this (snd (perform Samples.locked (OpRun [VStr "DELETE FROM t"])
               Samples.opened))
  = this Samples.opened.
Proof.
  apply (data_operations_keep_handle Samples.locked
           (OpRun [VStr "DELETE FROM t"]) Samples.opened); discriminate.
Defined.

Lemma calls_of_adapt d c k w :
  skipn (List.length (issued w)) (issued (snd (new_promise (adapt d c k) w)))
  = [c].
Proof. now rewrite new_promise_snd, adapt_issued, skipn_length_app. Qed.

(** X7.  Arguments are forwarded as they are.  On an open handle, each of
    [run], [get], [all], [each], [exec], [prepare] and [close()] issues
    exactly one driver call, on the handle's connection, carrying the
    statement text and the parameters unchanged and in order, whatever
    the driver answers. *)
Theorem database_operations_forward sqlite w c :
  db (this w) = Some c ->
  (forall args, calls_of sqlite (OpRun args) w = [DbRun c args])
  /\ (forall args, calls_of sqlite (OpGet args) w = [DbGet c args])
  /\ (forall args, calls_of sqlite (OpAll args) w = [DbAll c args])
  /\ (forall args, ends_in_function args ->
        calls_of sqlite (OpEach args) w = [DbEach c args])
  /\ (forall sql, calls_of sqlite (OpExec sql) w = [DbExec c sql])
  /\ (forall args, calls_of sqlite (OpPrepare args) w = [DbPrepare c args])
  /\ calls_of sqlite OpClose w = [DbClose c].
Proof.
  intros Hdb. unfold calls_of.
  repeat split; intros; simpl; unfold_operations;
    try match goal with
        | H : ends_in_function _ |- _ => rewrite (ends_in_function_guard _ H)
        end;
    simpl; unfold_executors; rewrite new_promise_snd, Hdb, adapt_issued;
    apply skipn_length_app.
Qed.

Lemma database_operations_forward_witness :
  calls_of Samples.locked
    (OpRun [VStr "INSERT INTO t VALUES (?, ?)"; VNum (JInt 1); VStr "a"])
    Samples.opened
  = [DbRun 0%nat [VStr "INSERT INTO t VALUES (?, ?)"; VNum (JInt 1); VStr "a"]].
Proof.
  apply (proj1 (database_operations_forward Samples.locked Samples.opened
                  0%nat eq_refl)).
Defined.

(** X8.  A Statement is not tied to the state of the handle: [bind],
    [reset], [finalize], [run], [get], [all] and [each] (with a trailing
    function) issue their one driver call on the wrapped statement even
    when the Database handle has no connection any more. *)
Theorem statement_operations_forward sqlite w self :
  let s := StatementClass.statement self in
  (forall args, calls_of sqlite (OpBind self args) w = [StBind s args])
  /\ calls_of sqlite (OpReset self) w = [StReset s]
  /\ calls_of sqlite (OpFinalize self) w = [StFinalize s]
  /\ (forall args, calls_of sqlite (OpStmtRun self args) w = [StRun s args])
  /\ (forall args, calls_of sqlite (OpStmtGet self args) w = [StGet s args])
  /\ (forall args, calls_of sqlite (OpStmtAll self args) w = [StAll s args])
  /\ (forall args, ends_in_function args ->
        calls_of sqlite (OpStmtEach self args) w = [StEach s args]).
Proof.
  unfold calls_of.
  repeat split; intros; simpl; unfold_operations;
    try match goal with
        | H : ends_in_function _ |- _ => rewrite (ends_in_function_guard _ H)
        end;
    simpl; unfold_executors; rewrite new_promise_snd, adapt_issued;
    apply skipn_length_app.
Qed.

Lemma statement_operations_forward_witness :
  calls_of Samples.agreeable
    (OpBind Samples.insert_stmt [VNum (JInt 7)]) Samples.fresh
  = [StBind 1%nat [VNum (JInt 7)]]
  /\ calls_of Samples.agreeable
       (OpStmtEach Samples.insert_stmt [VFun 0%nat]) Samples.fresh
     = [StEach 1%nat [VFun 0%nat]].
Proof.
  destruct (statement_operations_forward Samples.agreeable Samples.fresh
              Samples.insert_stmt) as (Hbind & _ & _ & _ & _ & _ & Heach).
  split.
  - apply Hbind.
  - apply Heach. exists [], 0%nat. reflexivity.
Defined.

(** *** Transactions, the other paths *)

(** X9.  [transaction(fn)] commits: when [BEGIN TRANSACTION] succeeds,
    [fn] returns a promise fulfilled with [v] (the handle still holding a
    connection) and [END TRANSACTION] succeeds, the transaction resolves
    with [v]; [END TRANSACTION] is the one statement issued after those
    of [fn], and no rollback is issued. *)
Theorem transaction_commits sqlite fn w c v w1 c1 :
  db (this w) = Some c ->
  succeeds sqlite (issued w) (DbExec c "BEGIN TRANSACTION") ->
  call fn (snd (exec sqlite "BEGIN TRANSACTION" w))
    = (Returned (Fulfilled v), w1) ->
  db (this w1) = Some c1 ->
  succeeds sqlite (issued w1) (DbExec c1 "END TRANSACTION") ->
  exists w',
    transaction sqlite fn w = (Fulfilled v, w')
    /\ issued w' = (issued w1 ++ [DbExec c1 "END TRANSACTION"])%list
    /\ this w' = this w1.
Proof.
  intros Hdb (cb & Hcb & Hok) Hfn Hdb1 (cbe & Hcbe & Hoke).
  unfold transaction.
  rewrite (exec_answer _ _ _ _ _ Hdb Hcb) in *. rewrite Hok in *.
  simpl in Hfn. simpl. rewrite Hfn. simpl.
  rewrite (exec_answer _ _ _ _ _ Hdb1 Hcbe), Hoke. simpl. eauto.
Qed.

Lemma transaction_commits_witness :
  exists w',
    transaction Samples.agreeable Samples.resolving Samples.opened
      = (Fulfilled (VNum (JInt 42)), w')
    /\ issued w'
       = [NewDatabase "test.db" (VNum (JInt 6));
          DbExec 0%nat "BEGIN TRANSACTION";
          DbExec 0%nat "END TRANSACTION"]
    /\ this w' = this Samples.opened.
Proof.
  apply (transaction_commits Samples.agreeable Samples.resolving
           Samples.opened 0%nat (VNum (JInt 42))
           (snd (call Samples.resolving
                   (snd (exec Samples.agreeable "BEGIN TRANSACTION"
                           Samples.opened))))
           0%nat eq_refl
           (ex_intro _ Samples.ok (conj eq_refl eq_refl))
           eq_refl eq_refl
           (ex_intro _ Samples.ok (conj eq_refl eq_refl))).
Defined.

(** X10.  When [BEGIN TRANSACTION] itself fails, [transaction(fn)]
    rejects with the driver's error; [fn] is not called and nothing is
    issued after the failed [BEGIN], in particular no rollback. *)
Theorem transaction_begin_fails sqlite fn w c e :
  db (this w) = Some c ->
  fails_with sqlite (issued w) (DbExec c "BEGIN TRANSACTION") e ->
  exists w',
    transaction sqlite fn w = (Rejected e, w')
    /\ issued w' = (issued w ++ [DbExec c "BEGIN TRANSACTION"])%list
    /\ invoked w' = invoked w
    /\ this w' = this w.
Proof.
  intros Hdb (cb & Hcb & <- & Herr). unfold transaction.
  rewrite (exec_answer _ _ _ _ _ Hdb Hcb), Herr. simpl. eauto.
Qed.

Lemma transaction_begin_fails_witness :
  exists w',
    transaction Samples.locked Samples.resolving Samples.opened
      = (Rejected Samples.busy, w')
    /\ issued w' = [NewDatabase "test.db" (VNum (JInt 6));
                    DbExec 0%nat "BEGIN TRANSACTION"]
    /\ invoked w' = invoked Samples.opened
    /\ this w' = this Samples.opened.
Proof.
  apply (transaction_begin_fails Samples.locked Samples.resolving
           Samples.opened 0%nat Samples.busy eq_refl).
  exists (Samples.failing Samples.busy). repeat split; reflexivity.
Defined.

(** X11.  When [fn] has resolved and the commit fails, the transaction
    is rolled back: [END TRANSACTION] failing with [e] is followed by
    [ROLLBACK TRANSACTION]; the transaction rejects with [e] if the
    rollback succeeds and with the rollback's own error if it fails. *)
Theorem transaction_commit_fails sqlite fn w c v w1 c1 e :
  db (this w) = Some c ->
  succeeds sqlite (issued w) (DbExec c "BEGIN TRANSACTION") ->
  call fn (snd (exec sqlite "BEGIN TRANSACTION" w))
    = (Returned (Fulfilled v), w1) ->
  db (this w1) = Some c1 ->
  fails_with sqlite (issued w1) (DbExec c1 "END TRANSACTION") e ->
  (succeeds sqlite (issued w1 ++ [DbExec c1 "END TRANSACTION"])
     (DbExec c1 "ROLLBACK TRANSACTION") ->
   exists w',
     transaction sqlite fn w = (Rejected e, w')
     /\ issued w' = (issued w1 ++ [DbExec c1 "END TRANSACTION";
                                   DbExec c1 "ROLLBACK TRANSACTION"])%list)
  /\ (forall e2,
        fails_with sqlite (issued w1 ++ [DbExec c1 "END TRANSACTION"])
          (DbExec c1 "ROLLBACK TRANSACTION") e2 ->
        exists w',
          transaction sqlite fn w = (Rejected e2, w')
          /\ issued w' = (issued w1 ++ [DbExec c1 "END TRANSACTION";
                                        DbExec c1 "ROLLBACK TRANSACTION"])%list).
Proof.
  intros Hdb (cb & Hcb & Hok) Hfn Hdb1 (cbe & Hcbe & <- & Herr).
  unfold transaction.
  rewrite (exec_answer _ _ _ _ _ Hdb Hcb) in *. rewrite Hok in *.
  simpl in Hfn. simpl. rewrite Hfn. simpl.
  rewrite (exec_answer _ _ _ _ _ Hdb1 Hcbe), Herr. simpl.
  split.
  - intros (cbr & Hcbr & Hokr).
    match goal with
    | |- context [exec sqlite "ROLLBACK TRANSACTION" ?w0] =>
        rewrite (exec_answer sqlite "ROLLBACK TRANSACTION" w0 c1 cbr Hdb1 Hcbr)
    end.
    rewrite Hokr. simpl. rewrite <- List.app_assoc. eauto.
  - intros e2 (cbr & Hcbr & <- & Herr2).
    match goal with
    | |- context [exec sqlite "ROLLBACK TRANSACTION" ?w0] =>
        rewrite (exec_answer sqlite "ROLLBACK TRANSACTION" w0 c1 cbr Hdb1 Hcbr)
    end.
    rewrite Herr2. simpl. rewrite <- List.app_assoc. eauto.
Qed.

Lemma transaction_commit_fails_witness :
  exists w',
    transaction MoreSamples.no_commit Samples.resolving Samples.opened
      = (Rejected Samples.busy, w')
    /\ issued w'
       = [NewDatabase "test.db" (VNum (JInt 6));
          DbExec 0%nat "BEGIN TRANSACTION";
          DbExec 0%nat "END TRANSACTION";
          DbExec 0%nat "ROLLBACK TRANSACTION"].
Proof.
  apply (proj1 (transaction_commit_fails MoreSamples.no_commit
                  Samples.resolving Samples.opened 0%nat (VNum (JInt 42))
                  (snd (call Samples.resolving
                          (snd (exec MoreSamples.no_commit "BEGIN TRANSACTION"
                                  Samples.opened))))
                  0%nat Samples.busy eq_refl
                  (ex_intro _ Samples.ok (conj eq_refl eq_refl))
                  eq_refl eq_refl
                  (ex_intro _ (Samples.failing Samples.busy)
                     (conj eq_refl (conj eq_refl eq_refl))))).
  exists Samples.ok. split; reflexivity.
Defined.

(** *** Scoped close, the retry *)

(** X12.  When [fn] has resolved and the driver refuses the close with
    [e], [close(fn)] asks the driver to close a second time (from its
    [catch] handler).  If that second close succeeds the connection is
    released and [close(fn)] rejects with [e]; the result of [fn] is
    lost.  If it fails too, [close(fn)] rejects with the second error and
    the connection stays attached. *)
Theorem close_fn_retries sqlite fn w c v w1 c1 e :
  db (this w) = Some c ->
  call fn w = (Returned (Fulfilled v), w1) ->
  db (this w1) = Some c1 ->
  fails_with sqlite (issued w1) (DbClose c1) e ->
  (succeeds sqlite (issued w1 ++ [DbClose c1]) (DbClose c1) ->
   exists w',
     close_fn sqlite fn w = (Returned (Rejected e), w')
     /\ db (this w') = None
     /\ issued w' = (issued w1 ++ [DbClose c1; DbClose c1])%list)
  /\ (forall e2,
        fails_with sqlite (issued w1 ++ [DbClose c1]) (DbClose c1) e2 ->
        exists w',
          close_fn sqlite fn w = (Returned (Rejected e2), w')
          /\ db (this w') = Some c1
          /\ issued w' = (issued w1 ++ [DbClose c1; DbClose c1])%list).
Proof.
  intros Hdb Hfn Hdb1 (cb & Hcb & <- & Herr).
  unfold close_fn. rewrite Hdb, Hfn. simpl.
  rewrite (close_answer _ _ _ _ Hdb1 Hcb), Herr. unfold returned. simpl.
  split.
  - intros (cb2 & Hcb2 & Hok2).
    match goal with
    | |- context [close sqlite ?w0] =>
        rewrite (close_answer sqlite w0 c1 cb2 Hdb1 Hcb2)
    end.
    rewrite Hok2. simpl. rewrite <- List.app_assoc. eauto.
  - intros e2 (cb2 & Hcb2 & <- & Herr2).
    match goal with
    | |- context [close sqlite ?w0] =>
        rewrite (close_answer sqlite w0 c1 cb2 Hdb1 Hcb2)
    end.
    rewrite Herr2. simpl. rewrite <- List.app_assoc. eauto.
Qed.

Lemma close_fn_retries_witness :
  exists w',
    close_fn MoreSamples.closes_at_second_try Samples.resolving Samples.opened
      = (Returned (Rejected Samples.busy), w')
    /\ db (this w') = None
    /\ issued w' = [NewDatabase "test.db" (VNum (JInt 6));
                    DbClose 0%nat; DbClose 0%nat].
Proof.
  apply (proj1 (close_fn_retries MoreSamples.closes_at_second_try
                  Samples.resolving Samples.opened 0%nat (VNum (JInt 42))
                  (snd (call Samples.resolving Samples.opened)) 0%nat
                  Samples.busy eq_refl eq_refl eq_refl
                  (ex_intro _ (Samples.failing Samples.busy)
                     (conj eq_refl (conj eq_refl eq_refl))))).
  exists Samples.ok. split; reflexivity.
Defined.

(** *** Settling follows the driver *)

Lemma deliver_length k cbs (h : Database) :
  List.length (fst (deliver k cbs h)) = List.length cbs.
Proof.
  revert h. induction cbs as [|cb rest IH]; intros h; simpl; auto.
  destruct (k cb h) as [s h1]. specialize (IH h1).
  destruct (deliver k rest h1). simpl in *. now rewrite IH.
Qed.

Lemma adapt_length d c k w :
  List.length (fst (adapt d c k w))
  = List.length (respond d (issued w) c).
Proof.
  unfold adapt, issue. simpl.
  pose proof (deliver_length k (respond d (issued w) c) (this w)) as H.
  destruct (deliver k _ (this w)). assumption.
Qed.

Lemma adapt_sole_call_length d c0 k w c :
  skipn (List.length (issued w)) (issued (snd (adapt d c0 k w))) = [c] ->
  List.length (fst (adapt d c0 k w))
  = List.length (respond d (issued w) c).
Proof.
  rewrite adapt_issued, skipn_length_app. intros H.
  inversion H; subst c0. apply adapt_length.
Qed.

(** X13.  The wrapper settles once per invocation of its callback and
    keeps no guard of its own: for an operation that reaches the driver,
    the number of [resolve]/[reject] calls behind its promise is the
    number of times the driver invoked the callback.  So a driver that
    never calls back leaves the promise pending for good (there is no
    timeout), and of several invocations the first decides. *)
Theorem settles_per_callback sqlite o w c :
  well_called o ->
  calls_of sqlite o w = [c] ->
  List.length (settle_calls sqlite o w)
  = List.length (respond sqlite (issued w) c)
  /\ fst (perform sqlite o w)
     = Returned (settle_state (settle_calls sqlite o w))
  /\ (respond sqlite (issued w) c = [] ->
      fst (perform sqlite o w) = Returned Pending).
Proof.
  intros Hcall Hcalls.
  assert (Hp : fst (perform sqlite o w)
               = Returned (settle_state (settle_calls sqlite o w))).
  { unfold settle_calls.
    destruct o; simpl in *; unfold_operations;
      try rewrite (ends_in_function_guard _ Hcall);
      rewrite new_promise_eq; reflexivity. }
  assert (Hlen : List.length (settle_calls sqlite o w)
                 = List.length (respond sqlite (issued w) c)).
  { unfold settle_calls, calls_of in *.
    destruct o; simpl in *; unfold_operations;
      try rewrite (ends_in_function_guard _ Hcall) in Hcalls;
      rewrite new_promise_eq in Hcalls; simpl in Hcalls;
      unfold_executors;
      repeat match goal with
             | H : context [if ?b then _ else _] |- _ => destruct b
             | H : context [match db ?h with _ => _ end] |- _ =>
                 destruct (db h)
             end;
      simpl in Hcalls;
      try solve [exact (no_call_issued Hcalls)];
      apply (adapt_sole_call_length _ _ _ _ _ Hcalls). }
  repeat split; auto.
  intros Hnone. rewrite Hp. rewrite Hnone in Hlen.
  destruct (settle_calls sqlite o w); [reflexivity | discriminate].
Qed.

Lemma settles_per_callback_witness :
  List.length (settle_calls MoreSamples.silent_close OpClose Samples.opened)
  = List.length (respond MoreSamples.silent_close (issued Samples.opened)
                   (DbClose 0%nat))
  /\ fst (perform MoreSamples.silent_close OpClose Samples.opened)
     = Returned (settle_state
                   (settle_calls MoreSamples.silent_close OpClose
                      Samples.opened))
  /\ (respond MoreSamples.silent_close (issued Samples.opened)
        (DbClose 0%nat) = [] ->
      fst (perform MoreSamples.silent_close OpClose Samples.opened)
      = Returned Pending).
Proof.
  apply (settles_per_callback MoreSamples.silent_close OpClose Samples.opened
           (DbClose 0%nat) I).
  reflexivity.
Defined.

(** *** Prepared statements *)

Lemma adapted_promise_answer d c k w cb :
  respond d (issued w) c = [cb] ->
  new_promise (adapt d c k) w =
    (settle_state [fst (k cb (this w))],
     {| this := snd (k cb (this w));
        issued := issued w ++ [c];
        invoked := invoked w |}).
Proof.
  intros Hcb. now rewrite new_promise_eq, (adapt_answer _ _ _ _ _ Hcb).
Qed.

(** X14.  [prepare], [bind], [run], [finalize] compose on one driver
    statement.  On an open handle with a driver that succeeds, [prepare]
    resolves with a Statement on the statement that this [prepare] call
    made; [bind] on it resolves with the same Statement; [run] resolves
    with the [lastID] and [changes] the driver attached to its callback;
    [finalize] resolves with no value.  The driver sees the four calls in
    order, the last three on that one statement, and the handle is left
    as it was. *)
Theorem prepared_statement_composes sqlite w c args params cbr :
  let s := List.length (issued w) in
  let st := {| StatementClass.statement := s |} in
  let h1 := (issued w ++ [DbPrepare c args])%list in
  let h2 := (h1 ++ [StBind s params])%list in
  let h3 := (h2 ++ [StRun s []])%list in
  db (this w) = Some c ->
  succeeds sqlite (issued w) (DbPrepare c args) ->
  succeeds sqlite h1 (StBind s params) ->
  respond sqlite h2 (StRun s []) = [cbr] ->
  truthy (cb_err cbr) = false ->
  succeeds sqlite h3 (StFinalize s) ->
  exists w1 w2 w3 w4,
    prepare sqlite args w = (Fulfilled (VStatement s), w1)
    /\ StatementClass.bind sqlite st params w1 = (Fulfilled (VStatement s), w2)
    /\ StatementClass.run sqlite st [] w2
       = (Fulfilled (VObj [("lastID", cb_lastID cbr);
                           ("changes", cb_changes cbr)]), w3)
    /\ StatementClass.finalize sqlite st w3 = (Fulfilled VUndefined, w4)
    /\ issued w4 = (issued w ++ [DbPrepare c args; StBind s params;
                                 StRun s []; StFinalize s])%list
    /\ this w4 = this w.
Proof.
  intros s st h1 h2 h3 Hdb (cbp & Hcbp & Hokp) (cbb & Hcbb & Hokb)
    Hcbr Hokr (cbf & Hcbf & Hokf).
  unfold prepare, prepare_settles. rewrite new_promise_eq, Hdb.
  rewrite (adapt_answer _ _ _ _ _ Hcbp).
  rewrite (settle_with_success _ _ _ Hokp). simpl.
  eexists. eexists. eexists. eexists.
  split; [reflexivity|].
  unfold StatementClass.bind, StatementClass.bind_settles.
  match goal with
  | |- context [new_promise (adapt sqlite ?c0 ?k) ?w0] =>
      rewrite (adapted_promise_answer sqlite c0 k w0 cbb Hcbb)
  end.
  rewrite (settle_with_success _ _ _ Hokb).
  split; [reflexivity|].
  unfold StatementClass.run, StatementClass.run_settles.
  match goal with
  | |- context [new_promise (adapt sqlite ?c0 ?k) ?w0] =>
      rewrite (adapted_promise_answer sqlite c0 k w0 cbr Hcbr)
  end.
  rewrite (settle_with_success _ _ _ Hokr).
  split; [reflexivity|].
  unfold StatementClass.finalize, StatementClass.finalize_settles.
  match goal with
  | |- context [new_promise (adapt sqlite ?c0 ?k) ?w0] =>
      rewrite (adapted_promise_answer sqlite c0 k w0 cbf Hcbf)
  end.
  rewrite (settle_with_success _ _ _ Hokf).
  split; [reflexivity|].
  simpl. unfold h3, h2, h1, s. repeat rewrite <- List.app_assoc.
  split; reflexivity.
Qed.

Lemma prepared_statement_composes_witness :
  exists w1 w2 w3 w4,
    prepare Samples.agreeable [VStr "INSERT INTO t VALUES (?)"] Samples.opened
      = (Fulfilled (VStatement 1%nat), w1)
    /\ StatementClass.bind Samples.agreeable Samples.insert_stmt
         [VNum (JInt 7)] w1 = (Fulfilled (VStatement 1%nat), w2)
    /\ StatementClass.run Samples.agreeable Samples.insert_stmt [] w2
       = (Fulfilled (VObj [("lastID", VNum (JInt 1));
                           ("changes", VNum (JInt 1))]), w3)
    /\ StatementClass.finalize Samples.agreeable Samples.insert_stmt w3
       = (Fulfilled VUndefined, w4)
    /\ issued w4 = (issued Samples.opened
                      ++ [DbPrepare 0%nat [VStr "INSERT INTO t VALUES (?)"];
                          StBind 1%nat [VNum (JInt 7)];
                          StRun 1%nat []; StFinalize 1%nat])%list
    /\ this w4 = this Samples.opened.
Proof.
  apply (prepared_statement_composes Samples.agreeable Samples.opened 0%nat
           [VStr "INSERT INTO t VALUES (?)"] [VNum (JInt 7)] Samples.ok
           eq_refl
           (ex_intro _ Samples.ok (conj eq_refl eq_refl))
           (ex_intro _ Samples.ok (conj eq_refl eq_refl))
           eq_refl eq_refl
           (ex_intro _ Samples.ok (conj eq_refl eq_refl))).
Defined.

(* ================================================================== *)
(** ** Further properties of the query helper *)
(* ================================================================== *)

Import Digits.

(** *** Decimal numbers *)












(** *** The statements the helper builds *)



(** X16.  A page that does not start with a number is not refused: its
    offset is NaN, and the row statement ends in [OFFSET NaN]. *)
Theorem paged_sql_without_number options table keys select :
  page_of options = JNaN ->
  paged_sql options table keys select
  = select_sql options table keys select
      ++ " LIMIT " ++ num_to_string (pagecap_of options) ++ " OFFSET NaN".
Proof.
  intros Hp. unfold paged_sql. rewrite Hp.
  destruct (pagecap_of options); reflexivity.
Qed.

Lemma paged_sql_without_number_witness :
  page_of MoreSamples.bad_page = JNaN
  /\ paged_sql MoreSamples.bad_page "items" [] "*"
     = "SELECT * FROM items LIMIT 10 OFFSET NaN".
Proof.
  split; [reflexivity|].
  apply (paged_sql_without_number MoreSamples.bad_page "items" [] "*").
  reflexivity.
Defined.

(** X17.  Without searchable columns the keyword does nothing: with an
    empty [keys] the row statement and the count statement are those of
    the same options without [key]. *)
Theorem keyword_needs_keys k cnd pg cap table select :
  let with_key :=
    {| key := k; condition := cnd; page := pg; pagecap := cap |} in
  let without_key :=
    {| key := None; condition := cnd; page := pg; pagecap := cap |} in
  key_condition with_key [] = None
  /\ select_sql with_key table [] select = select_sql without_key table [] select
  /\ paged_sql with_key table [] select = paged_sql without_key table [] select
  /\ count_sql with_key table [] = count_sql without_key table [].
Proof.
  assert (H : key_condition
                {| key := k; condition := cnd; page := pg; pagecap := cap |} []
              = None).
  { unfold key_condition. simpl. now rewrite Bool.andb_false_r. }
  simpl. unfold paged_sql, select_sql, count_sql. rewrite H.
  repeat split.
Qed.

Lemma given_parenthesised inner : given (Some ("(" ++ inner)) = true.
Proof. reflexivity. Qed.

(** X18.  When no [options.condition] is given and the keyword applies
    (a non-empty [key], at least one column), the row statement and the
    count statement carry the same [WHERE] clause: the parenthesised
    chain of [column LIKE "%key%"] joined by [OR]. *)
Theorem count_shares_key_condition options table keys select :
  given (key options) = true ->
  keys <> [] ->
  given (condition options) = false ->
  let likes :=
    map (fun k => k ++ " LIKE " ++ dquote ++ "%" ++ text (key options)
                    ++ "%" ++ dquote) keys in
  let clause := " WHERE (" ++ String.concat " OR " likes ++ ")" in
  select_sql options table keys select
  = ("SELECT " ++ select ++ " FROM " ++ table) ++ clause
  /\ count_sql options table keys
     = ("SELECT COUNT(*) AS count FROM " ++ table) ++ clause.
Proof.
  intros Hkey Hkeys Hcond likes clause.
  assert (Hc : key_condition options keys
               = Some ("(" ++ String.concat " OR " likes ++ ")")).
  { unfold key_condition. rewrite Hkey.
    destruct keys; [contradiction|]. reflexivity. }
  unfold select_sql, count_sql. rewrite Hc, given_parenthesised, Hcond.
  split; reflexivity.
Qed.

Lemma count_shares_key_condition_witness :
  select_sql Samples.foo_options "items" ["name"; "tag"] "*"
  = "SELECT * FROM items"
      ++ " WHERE (name LIKE " ++ dquote ++ "%foo%" ++ dquote
      ++ " OR tag LIKE " ++ dquote ++ "%foo%" ++ dquote ++ ")"
  /\ count_sql Samples.foo_options "items" ["name"; "tag"]
     = "SELECT COUNT(*) AS count FROM items"
         ++ " WHERE (name LIKE " ++ dquote ++ "%foo%" ++ dquote
         ++ " OR tag LIKE " ++ dquote ++ "%foo%" ++ dquote ++ ")".
Proof.
  apply (count_shares_key_condition Samples.foo_options "items"
           ["name"; "tag"] "*").
  - reflexivity.
  - discriminate.
  - reflexivity.
Defined.

(** *** Running the helper *)

(** X19.  On a handle without a connection [queryWithSelect], [query]
    and [delete] reject with the error "database not connected", which
    is not the "Database.<op>: database is not open" error of the other
    operations; nothing is issued to the driver. *)
Theorem helpers_need_connection sqlite coerce w :
  db (this w) = None ->
  (forall options table keys select,
     queryWithSelect sqlite coerce options table keys select w
     = (Rejected (VErr KError "database not connected"), w))
  /\ (forall options table keys,
        query sqlite coerce options table keys w
        = (Rejected (VErr KError "database not connected"), w))
  /\ (forall id table,
        DatabaseMore.delete sqlite id table w
        = (Rejected (VErr KError "database not connected"), w))
  /\ ~ NotOpen (VErr KError "database not connected").
Proof.
  intros Hdb.
  unfold query, queryWithSelect, DatabaseMore.delete. rewrite Hdb.
  repeat split. intros (op & H). discriminate H.
Qed.

Lemma helpers_need_connection_witness :
  queryWithSelect Samples.agreeable Samples.nan_coercion
    (Some Samples.foo_options) "items" ["name"] "*" Samples.fresh
  = (Rejected (VErr KError "database not connected"), Samples.fresh)
  /\ DatabaseMore.delete Samples.agreeable "1,2" "items" Samples.fresh
     = (Rejected (VErr KError "database not connected"), Samples.fresh).
Proof.
  destruct (helpers_need_connection Samples.agreeable Samples.nan_coercion
              Samples.fresh eq_refl) as (Hq & _ & Hd & _).
  split; [apply Hq | apply Hd].
Defined.

Lemma all_failure sqlite args w c cb :
  db (this w) = Some c ->
  respond sqlite (issued w) (DbAll c args) = [cb] ->
  truthy (cb_err cb) = true ->
  DatabaseClass.all sqlite args w =
    (Rejected (cb_err cb),
     {| this := this w;
        issued := issued w ++ [DbAll c args];
        invoked := invoked w |}).
Proof.
  intros Hdb Hcb Herr. unfold DatabaseClass.all. rewrite new_promise_eq.
  unfold all_settles. rewrite Hdb, (adapt_answer _ _ _ _ _ Hcb).
  unfold settle_with. rewrite Herr. reflexivity.
Qed.

Lemma get_failure sqlite args w c cb :
  db (this w) = Some c ->
  respond sqlite (issued w) (DbGet c args) = [cb] ->
  truthy (cb_err cb) = true ->
  DatabaseClass.get sqlite args w =
    (Rejected (cb_err cb),
     {| this := this w;
        issued := issued w ++ [DbGet c args];
        invoked := invoked w |}).
Proof.
  intros Hdb Hcb Herr. unfold DatabaseClass.get. rewrite new_promise_eq.
  unfold get_settles. rewrite Hdb, (adapt_answer _ _ _ _ _ Hcb).
  unfold settle_with. rewrite Herr. reflexivity.
Qed.

(** X20.  Without [options.page] (missing or empty, or no options at
    all) the helper issues one statement only, the row statement with no
    [LIMIT]; it resolves with a result that holds the rows the driver
    returned and no pagination field, or rejects with the driver's
    error. *)
Theorem query_without_page sqlite coerce options table keys select w c :
  let opts := match options with Some o => o | None => no_options end in
  let sql := select_sql opts table keys select in
  db (this w) = Some c ->
  given (page opts) = false ->
  (forall cb,
     respond sqlite (issued w) (DbAll c [VStr sql]) = [cb] ->
     truthy (cb_err cb) = false ->
     exists w',
       queryWithSelect sqlite coerce options table keys select w
       = (Fulfilled (VObj [("rows", cb_arg cb)]), w')
       /\ issued w' = (issued w ++ [DbAll c [VStr sql]])%list)
  /\ (forall e,
        fails_with sqlite (issued w) (DbAll c [VStr sql]) e ->
        exists w',
          queryWithSelect sqlite coerce options table keys select w
          = (Rejected e, w')
          /\ issued w' = (issued w ++ [DbAll c [VStr sql]])%list).
Proof.
  intros opts sql Hdb Hpage.
  unfold queryWithSelect. rewrite Hdb. fold opts. rewrite Hpage. fold sql.
  split.
  - intros cb Hcb Hok. rewrite (all_answer _ _ _ _ _ Hdb Hcb Hok).
    simpl. eauto.
  - intros e (cb & Hcb & <- & Herr).
    rewrite (all_failure _ _ _ _ _ Hdb Hcb Herr). simpl. eauto.
Qed.

Lemma query_without_page_witness :
  exists w',
    queryWithSelect (Samples.counting 11) Samples.nan_coercion
      (Some MoreSamples.only_condition) "items" ["name"] "*" Samples.opened
    = (Fulfilled (VObj [("rows", VArr [VObj [("name", VStr "foo")]])]), w')
    /\ issued w'
       = [NewDatabase "test.db" (VNum (JInt 6));
          DbAll 0%nat [VStr "SELECT * FROM items WHERE age > 3"]].
Proof.
  apply (proj1 (query_without_page (Samples.counting 11) Samples.nan_coercion
                  (Some MoreSamples.only_condition) "items" ["name"] "*"
                  Samples.opened 0%nat eq_refl eq_refl)
           {| cb_err := VNull; cb_lastID := VUndefined;
              cb_changes := VUndefined;
              cb_arg := VArr [VObj [("name", VStr "foo")]] |}
           eq_refl eq_refl).
Defined.

(** The helper after a count that succeeded. *)
Lemma paged_query_after_count sqlite coerce options table keys select w c cbg :
  db (this w) = Some c ->
  given (page options) = true ->
  respond sqlite (issued w) (DbGet c [VStr (count_sql options table keys)])
    = [cbg] ->
  truthy (cb_err cbg) = false ->
  let w1 := {| this := this w;
               issued := issued w
                         ++ [DbGet c [VStr (count_sql options table keys)]];
               invoked := invoked w |} in
  queryWithSelect sqlite coerce (Some options) table keys select w
  = match get_prop (cb_arg cbg) "count" with
    | Threw e => (Rejected e, w1)
    | Returned allcount =>
        let ret :=
          [("rows", VArr []); ("allcount", allcount);
           ("page", VNum (page_of options));
           ("pagecap", VNum (pagecap_of options));
           ("pagecount",
            VNum (js_ceil_div
                    (to_number coerce (js_or allcount (VNum (JInt 0))))
                    (pagecap_of options)))] in
        await
          (fst (DatabaseClass.all sqlite
                  [VStr (paged_sql options table keys select)] w1))
          (fun rows w => (Fulfilled (VObj (set_field "rows" rows ret)), w))
          (snd (DatabaseClass.all sqlite
                  [VStr (paged_sql options table keys select)] w1))
    end.
Proof.
  intros Hdb Hpage Hcbg Hokg w1.
  unfold queryWithSelect. rewrite Hdb, Hpage.
  rewrite (get_answer _ _ _ _ _ Hdb Hcbg Hokg). fold w1.
  unfold await at 1.
  destruct (get_prop (cb_arg cbg) "count") as [allcount | e]; [|reflexivity].
  destruct (DatabaseClass.all sqlite _ w1). reflexivity.
Qed.

(** X21.  A paginated query.  With [options.page] given and a page
    capacity [cap > 0], on an open handle whose driver answers the count
    with a row [{count: n}], [n >= 0]: the helper issues the count
    statement and then the row statement, and resolves with the rows, with
    [allcount = n], with the parsed [page] and [pagecap], and with
    [pagecount] the least [q] such that [n <= cap * q]. *)
Theorem paged_query sqlite coerce options table keys select w c
    cbg fields n cap cba :
  db (this w) = Some c ->
  given (page options) = true ->
  pagecap_of options = JInt cap ->
  0 < cap ->
  respond sqlite (issued w) (DbGet c [VStr (count_sql options table keys)])
    = [cbg] ->
  truthy (cb_err cbg) = false ->
  cb_arg cbg = VObj fields ->
  lookup_field "count" fields = VNum (JInt n) ->
  0 <= n ->
  respond sqlite
    (issued w ++ [DbGet c [VStr (count_sql options table keys)]])
    (DbAll c [VStr (paged_sql options table keys select)]) = [cba] ->
  truthy (cb_err cba) = false ->
  exists ret w' q,
    queryWithSelect sqlite coerce (Some options) table keys select w
    = (Fulfilled (VObj ret), w')
    /\ issued w'
       = (issued w ++ [DbGet c [VStr (count_sql options table keys)];
                       DbAll c [VStr (paged_sql options table keys select)]])%list
    /\ lookup_field "rows" ret = cb_arg cba
    /\ lookup_field "allcount" ret = VNum (JInt n)
    /\ lookup_field "page" ret = VNum (page_of options)
    /\ lookup_field "pagecap" ret = VNum (JInt cap)
    /\ lookup_field "pagecount" ret = VNum (JInt q)
    /\ cap * (q - 1) < n <= cap * q.
Proof.
  intros Hdb Hpage Hcap Hpos Hcbg Hokg Hrow Hcount Hn Hcba Hoka.
  destruct (pagecount_is_ceiling coerce n cap Hn Hpos) as (q & Hq & Hceil).
  rewrite (paged_query_after_count _ _ _ _ _ _ _ _ _ Hdb Hpage Hcbg Hokg).
  rewrite Hrow. unfold get_prop. rewrite Hcount, Hcap, Hq. cbv zeta.
  match goal with
  | |- context [DatabaseClass.all sqlite ?a ?w0] =>
      rewrite (all_answer sqlite a w0 c cba Hdb Hcba Hoka)
  end.
  unfold await.
  eexists. eexists. exists q.
  split; [reflexivity|].
  cbn [issued this invoked fst snd]. rewrite <- List.app_assoc.
  repeat split; try reflexivity; lia.
Qed.

Lemma paged_query_witness :
  exists ret w' q,
    queryWithSelect (Samples.counting 11) Samples.nan_coercion
      (Some MoreSamples.third_page) "items" ["name"] "*" Samples.opened
    = (Fulfilled (VObj ret), w')
    /\ issued w'
       = (issued Samples.opened
            ++ [DbGet 0%nat
                  [VStr (count_sql MoreSamples.third_page "items" ["name"])];
                DbAll 0%nat
                  [VStr (paged_sql MoreSamples.third_page "items" ["name"]
                           "*")]])%list
    /\ lookup_field "rows" ret = VArr [VObj [("name", VStr "foo")]]
    /\ lookup_field "allcount" ret = VNum (JInt 11)
    /\ lookup_field "page" ret = VNum (page_of MoreSamples.third_page)
    /\ lookup_field "pagecap" ret = VNum (JInt 10)
    /\ lookup_field "pagecount" ret = VNum (JInt q)
    /\ 10 * (q - 1) < 11 <= 10 * q.
Proof.
  apply (paged_query (Samples.counting 11) Samples.nan_coercion
           MoreSamples.third_page "items" ["name"] "*" Samples.opened 0%nat
           {| cb_err := VNull; cb_lastID := VUndefined;
              cb_changes := VUndefined;
              cb_arg := VObj [("count", VNum (JInt 11))] |}
           [("count", VNum (JInt 11))] 11 10
           {| cb_err := VNull; cb_lastID := VUndefined;
              cb_changes := VUndefined;
              cb_arg := VArr [VObj [("name", VStr "foo")]] |});
    try reflexivity; lia.
Defined.

(** X22.  The count comes first and stops the query when it fails.  If
    the driver rejects the count statement the helper rejects with that
    error; if the count succeeds without a row ([undefined] or [null])
    the helper rejects with a [TypeError].  Either way the row statement
    is never issued. *)
Theorem paged_query_stops_at_count sqlite coerce options table keys select w c :
  let count := DbGet c [VStr (count_sql options table keys)] in
  db (this w) = Some c ->
  given (page options) = true ->
  (forall e,
     fails_with sqlite (issued w) count e ->
     exists w',
       queryWithSelect sqlite coerce (Some options) table keys select w
       = (Rejected e, w')
       /\ issued w' = (issued w ++ [count])%list)
  /\ (forall cb,
        respond sqlite (issued w) count = [cb] ->
        truthy (cb_err cb) = false ->
        cb_arg cb = VUndefined \/ cb_arg cb = VNull ->
        exists msg w',
          queryWithSelect sqlite coerce (Some options) table keys select w
          = (Rejected (VErr KTypeError msg), w')
          /\ issued w' = (issued w ++ [count])%list).
Proof.
  intros count Hdb Hpage. split.
  - intros e (cb & Hcb & <- & Herr).
    unfold queryWithSelect. rewrite Hdb, Hpage.
    rewrite (get_failure _ _ _ _ _ Hdb Hcb Herr). simpl. eauto.
  - intros cb Hcb Hok Hrow.
    rewrite (paged_query_after_count _ _ _ _ _ _ _ _ _ Hdb Hpage Hcb Hok).
    destruct Hrow as [-> | ->]; simpl; eauto.
Qed.

Lemma paged_query_stops_at_count_witness :
  (exists w',
     queryWithSelect Samples.locked Samples.nan_coercion
       (Some Samples.foo_options) "items" ["name"] "*" Samples.opened
     = (Rejected Samples.busy, w')
     /\ issued w'
        = (issued Samples.opened
             ++ [DbGet 0%nat
                   [VStr (count_sql Samples.foo_options "items" ["name"])]])%list)
  /\ (exists msg w',
        queryWithSelect Samples.agreeable Samples.nan_coercion
          (Some Samples.foo_options) "items" ["name"] "*" Samples.opened
        = (Rejected (VErr KTypeError msg), w')
        /\ issued w'
           = (issued Samples.opened
                ++ [DbGet 0%nat
                      [VStr (count_sql Samples.foo_options "items"
                               ["name"])]])%list).
Proof.
  destruct (paged_query_stops_at_count Samples.locked Samples.nan_coercion
              Samples.foo_options "items" ["name"] "*" Samples.opened 0%nat
              eq_refl eq_refl) as [Hfail _].
  destruct (paged_query_stops_at_count Samples.agreeable Samples.nan_coercion
              Samples.foo_options "items" ["name"] "*" Samples.opened 0%nat
              eq_refl eq_refl) as [_ Hrow].
  split.
  - apply Hfail. exists (Samples.failing Samples.busy).
    repeat split; reflexivity.
  - apply (Hrow Samples.ok); [reflexivity | reflexivity | left; reflexivity].
Defined.

(** X23.  A page capacity of zero is not refused.  With [pagecap]
    parsing to 0 the helper still runs both statements and resolves; its
    [pagecount], a division by zero, is [Infinity] for a positive count
    and [NaN] for a count of zero. *)
Theorem paged_query_zero_capacity sqlite coerce options table keys select w c
    cbg fields n cba :
  db (this w) = Some c ->
  given (page options) = true ->
  pagecap_of options = JInt 0 ->
  respond sqlite (issued w) (DbGet c [VStr (count_sql options table keys)])
    = [cbg] ->
  truthy (cb_err cbg) = false ->
  cb_arg cbg = VObj fields ->
  lookup_field "count" fields = VNum (JInt n) ->
  0 <= n ->
  respond sqlite
    (issued w ++ [DbGet c [VStr (count_sql options table keys)]])
    (DbAll c [VStr (paged_sql options table keys select)]) = [cba] ->
  truthy (cb_err cba) = false ->
  exists ret w',
    queryWithSelect sqlite coerce (Some options) table keys select w
    = (Fulfilled (VObj ret), w')
    /\ lookup_field "pagecap" ret = VNum (JInt 0)
    /\ lookup_field "pagecount" ret
       = VNum (if n =? 0 then JNaN else JInf false).
Proof.
  intros Hdb Hpage Hcap Hcbg Hokg Hrow Hcount Hn Hcba Hoka.
  rewrite (paged_query_after_count _ _ _ _ _ _ _ _ _ Hdb Hpage Hcbg Hokg).
  rewrite Hrow. unfold get_prop. rewrite Hcount, Hcap. cbv zeta.
  match goal with
  | |- context [DatabaseClass.all sqlite ?a ?w0] =>
      rewrite (all_answer sqlite a w0 c cba Hdb Hcba Hoka)
  end.
  unfold await.
  eexists. eexists. split; [reflexivity|].
  split; [reflexivity|].
  cbn [lookup_field set_field String.eqb Ascii.eqb Bool.eqb].
  unfold js_or, truthy.
  destruct (Z.eqb_spec n 0) as [-> | Hnz]; [reflexivity|].
  simpl. unfold js_ceil_div. simpl.
  destruct (Z.eqb_spec n 0); [contradiction|].
  destruct (Z.ltb_spec n 0); [lia | reflexivity].
Qed.

Lemma paged_query_zero_capacity_witness :
  exists ret w',
    queryWithSelect (Samples.counting 11) Samples.nan_coercion
      (Some MoreSamples.zero_cap) "items" [] "*" Samples.opened
    = (Fulfilled (VObj ret), w')
    /\ lookup_field "pagecap" ret = VNum (JInt 0)
    /\ lookup_field "pagecount" ret
       = VNum (if 11 =? 0 then JNaN else JInf false).
Proof.
  apply (paged_query_zero_capacity (Samples.counting 11) Samples.nan_coercion
           MoreSamples.zero_cap "items" [] "*" Samples.opened 0%nat
           {| cb_err := VNull; cb_lastID := VUndefined;
              cb_changes := VUndefined;
              cb_arg := VObj [("count", VNum (JInt 11))] |}
           [("count", VNum (JInt 11))] 11
           {| cb_err := VNull; cb_lastID := VUndefined;
              cb_changes := VUndefined;
              cb_arg := VArr [VObj [("name", VStr "foo")]] |});
    try reflexivity; lia.
Defined.

(** *** [delete] *)

Import Text.

Lemma split_without_separator sep s :
  has_char sep s = false -> DatabaseMore.split sep s = [s].
Proof.
  induction s as [|c rest IH]; simpl; [reflexivity|].
  intros H. apply Bool.orb_false_iff in H. destruct H as [Hc Hrest].
  rewrite Hc, (IH Hrest). reflexivity.
Qed.

Lemma split_at_separator sep a b :
  has_char sep a = false ->
  DatabaseMore.split sep (a ++ String sep b) = a :: DatabaseMore.split sep b.
Proof.
  induction a as [|c rest IH]; simpl.
  - intros _. now rewrite Ascii.eqb_refl.
  - intros H. apply Bool.orb_false_iff in H. destruct H as [Hc Hrest].
    rewrite Hc, (IH Hrest). reflexivity.
Qed.

(** Splitting at commas undoes joining with commas, for pieces without
    a comma. *)
Lemma split_concat ids :
  ids <> [] ->
  Forall (fun d => has_char "," d = false) ids ->
  DatabaseMore.split "," (String.concat "," ids) = ids.
Proof.
  intros Hne Hall. induction Hall as [|d rest Hd Hrest IH]; [contradiction|].
  destruct rest as [|d2 rest2].
  - simpl. now apply split_without_separator.
  - change (String.concat "," (d :: d2 :: rest2))
      with (d ++ String "," (String.concat "," (d2 :: rest2))).
    rewrite (split_at_separator _ _ _ Hd). f_equal.
    apply IH. discriminate.
Qed.

(** X24.  [delete] of a comma-separated list of ids.  For a non-empty
    list of ids, none containing a comma, passed joined by commas, the
    one statement issued is [DELETE FROM table WHERE _id IN (...)] with
    every id between double quotes, in order (the empty string counts as
    one id, the empty one).  The promise resolves with no value when the
    driver succeeds and rejects with the driver's error otherwise. *)
Theorem delete_by_ids sqlite ids table w c :
  let sql :=
    "DELETE FROM " ++ table ++ " WHERE _id IN ("
      ++ String.concat "," (map (fun d => dquote ++ d ++ dquote) ids) ++ ")" in
  db (this w) = Some c ->
  ids <> [] ->
  Forall (fun d => has_char "," d = false) ids ->
  (succeeds sqlite (issued w) (DbExec c sql) ->
   exists w',
     DatabaseMore.delete sqlite (String.concat "," ids) table w
     = (Fulfilled VUndefined, w')
     /\ issued w' = (issued w ++ [DbExec c sql])%list
     /\ this w' = this w)
  /\ (forall e,
        fails_with sqlite (issued w) (DbExec c sql) e ->
        exists w',
          DatabaseMore.delete sqlite (String.concat "," ids) table w
          = (Rejected e, w')
          /\ issued w' = (issued w ++ [DbExec c sql])%list
          /\ this w' = this w).
Proof.
  intros sql Hdb Hne Hall.
  assert (Hsql : DatabaseMore.delete_sql (String.concat "," ids) table = sql).
  { unfold DatabaseMore.delete_sql. now rewrite (split_concat ids Hne Hall). }
  unfold DatabaseMore.delete, DatabaseMore.delete_settles.
  rewrite Hdb, Hsql. split.
  - intros (cb & Hcb & Hok).
    rewrite (adapted_promise_answer _ _ _ _ _ Hcb).
    rewrite (settle_with_success _ _ _ Hok). simpl. eauto.
  - intros e (cb & Hcb & <- & Herr).
    rewrite (adapted_promise_answer _ _ _ _ _ Hcb).
    rewrite (settle_with_error _ _ _ Herr). simpl. eauto.
Qed.

Lemma delete_by_ids_witness :
  exists w',
    DatabaseMore.delete Samples.agreeable "7,,abc" "items" Samples.opened
    = (Fulfilled VUndefined, w')
    /\ issued w'
       = (issued Samples.opened
            ++ [DbExec 0%nat
                  ("DELETE FROM items WHERE _id IN ("
                     ++ dquote ++ "7" ++ dquote ++ ","
                     ++ dquote ++ dquote ++ ","
                     ++ dquote ++ "abc" ++ dquote ++ ")")])%list
    /\ this w' = this Samples.opened.
Proof.
  apply (proj1 (delete_by_ids Samples.agreeable ["7"; ""; "abc"] "items"
                  Samples.opened 0%nat eq_refl
                  ltac:(discriminate)
                  ltac:(repeat constructor))).
  exists Samples.ok. split; reflexivity.
Defined.

(* ================================================================== *)
(** ** Properties of class DatabaseMemory *)
(* ================================================================== *)

Lemma memory_deliver_report failure success cbs w :
  MemoryClass.this
    (snd (MemoryClass.deliver (MemoryClass.report failure success) cbs w))
  = MemoryClass.this w
  /\ MemoryClass.issued
       (snd (MemoryClass.deliver (MemoryClass.report failure success) cbs w))
     = MemoryClass.issued w.
Proof.
  revert w. induction cbs as [|cb rest IH]; intros w; simpl; auto.
  destruct (MemoryClass.report failure success cb w) as [s1 w1] eqn:E.
  assert (H1 : MemoryClass.this w1 = MemoryClass.this w
               /\ MemoryClass.issued w1 = MemoryClass.issued w).
  { unfold MemoryClass.report in E.
    destruct (truthy (cb_err cb)); inversion E; subst; simpl; auto. }
  specialize (IH w1).
  destruct (MemoryClass.deliver (MemoryClass.report failure success) rest w1).
  simpl in *. destruct IH, H1. split; congruence.
Qed.

Lemma memory_run_and_report sqlite c args failure success w :
  MemoryClass.this (MemoryClass.run_and_report sqlite c args failure success w)
  = MemoryClass.this w
  /\ MemoryClass.issued
       (MemoryClass.run_and_report sqlite c args failure success w)
     = (MemoryClass.issued w ++ [DbRun c args])%list.
Proof.
  unfold MemoryClass.run_and_report, MemoryClass.issue.
  match goal with
  | |- context [MemoryClass.deliver ?k ?cbs ?w0] =>
      apply (memory_deliver_report failure success cbs w0)
  end.
Qed.

Lemma memory_run_and_report_failure sqlite c args failure success w e :
  fails_with sqlite (MemoryClass.issued w) (DbRun c args) e ->
  MemoryClass.console
    (MemoryClass.run_and_report sqlite c args failure success w)
  = (MemoryClass.console w
       ++ [{| MemoryClass.stream := MemoryClass.Err;
              MemoryClass.message := failure;
              MemoryClass.detail := Some e |}])%list.
Proof.
  intros (cb & Hcb & <- & Herr).
  unfold MemoryClass.run_and_report, MemoryClass.issue. rewrite Hcb.
  simpl. unfold MemoryClass.report. rewrite Herr. reflexivity.
Qed.

(** X25.  A DatabaseMemory without a connection: [createTable],
    [insert], [update], [delete] and [close] issue nothing and throw
    nothing, they only write "Database is not open." to the error
    console; [query] writes the same line and rejects with an error of
    that message. *)
Theorem memory_closed_handle sqlite w :
  MemoryClass.db (MemoryClass.this w) = None ->
  (forall m,
     MemoryClass.invoke sqlite m w
     = MemoryClass.console_error "Database is not open." None w)
  /\ (forall sql params,
        MemoryClass.query sqlite sql params w
        = (Rejected (VErr KError "Database is not open."),
           MemoryClass.console_error "Database is not open." None w)).
Proof.
  intros Hdb. split.
  - intros m. destruct m; simpl;
      unfold MemoryClass.createTable, MemoryClass.insert, MemoryClass.update,
        MemoryClass.delete, MemoryClass.close;
      rewrite Hdb; reflexivity.
  - intros sql params. unfold MemoryClass.query. rewrite Hdb. reflexivity.
Qed.

Lemma memory_closed_handle_witness :
  MemoryClass.invoke Samples.agreeable
    (MemoryClass.MInsert "t" ["a"] [VNum (JInt 1)]) MoreSamples.memory_fresh
  = MemoryClass.console_error "Database is not open." None
      MoreSamples.memory_fresh
  /\ MemoryClass.query Samples.agreeable "SELECT 1" None
       MoreSamples.memory_fresh
     = (Rejected (VErr KError "Database is not open."),
        MemoryClass.console_error "Database is not open." None
          MoreSamples.memory_fresh).
Proof.
  destruct (memory_closed_handle Samples.agreeable MoreSamples.memory_fresh
              eq_refl) as [Hm Hq].
  split; [apply Hm | apply Hq].
Defined.

(** X26.  [close] of a DatabaseMemory always lets go of the connection.
    Whatever the driver answers, and before it answers, the handle is
    left without a connection after one close request; a driver error is
    only written to the console.  From then on [query] rejects with
    "Database is not open.", also when the driver did not close. *)
Theorem memory_close_detaches sqlite w c :
  MemoryClass.db (MemoryClass.this w) = Some c ->
  let w' := MemoryClass.close sqlite w in
  MemoryClass.db (MemoryClass.this w') = None
  /\ MemoryClass.issued w' = (MemoryClass.issued w ++ [DbClose c])%list
  /\ (forall sql params,
        fst (MemoryClass.query sqlite sql params w')
        = Rejected (VErr KError "Database is not open."))
  /\ (forall e,
        fails_with sqlite (MemoryClass.issued w) (DbClose c) e ->
        MemoryClass.console w'
        = (MemoryClass.console w
             ++ [{| MemoryClass.stream := MemoryClass.Err;
                    MemoryClass.message := "Failed to close the database:";
                    MemoryClass.detail := Some e |}])%list).
Proof.
  intros Hdb w'.
  assert (H : MemoryClass.this w' = {| MemoryClass.db := None |}
              /\ MemoryClass.issued w'
                 = (MemoryClass.issued w ++ [DbClose c])%list).
  { unfold w', MemoryClass.close, MemoryClass.issue. rewrite Hdb.
    match goal with
    | |- context [MemoryClass.deliver (MemoryClass.report ?f ?s) ?cbs ?w0] =>
        apply (memory_deliver_report f s cbs w0)
    end. }
  destruct H as [Hthis Hissued].
  repeat split.
  - now rewrite Hthis.
  - assumption.
  - intros sql params. unfold MemoryClass.query. now rewrite Hthis.
  - intros e (cb & Hcb & <- & Herr).
    unfold w', MemoryClass.close, MemoryClass.issue. rewrite Hdb, Hcb.
    simpl. unfold MemoryClass.report. rewrite Herr. reflexivity.
Qed.

Lemma memory_close_detaches_witness :
  MemoryClass.db
    (MemoryClass.this
       (MemoryClass.close Samples.locked MoreSamples.memory_opened)) = None
  /\ MemoryClass.issued
       (MemoryClass.close Samples.locked MoreSamples.memory_opened)
     = [NewDatabase ":memory:" VUndefined; DbClose 0%nat]
  /\ fst (MemoryClass.query Samples.locked "SELECT 1" None
            (MemoryClass.close Samples.locked MoreSamples.memory_opened))
     = Rejected (VErr KError "Database is not open.").
Proof.
  destruct (memory_close_detaches Samples.locked MoreSamples.memory_opened
              0%nat eq_refl) as (Hdb & Hissued & Hquery & _).
  split; [exact Hdb | split; [exact Hissued | apply Hquery]].
Defined.

(** X27.  The writing methods of a DatabaseMemory cannot fail towards
    their caller.  On an open handle [createTable], [insert], [update]
    and [delete] issue one [run] call and leave the handle as it is; when
    the driver reports an error, the only trace is one line on the error
    console carrying that error. *)
Theorem memory_failures_only_logged sqlite m w c :
  MemoryClass.db (MemoryClass.this w) = Some c ->
  m <> MemoryClass.MClose ->
  let w' := MemoryClass.invoke sqlite m w in
  MemoryClass.this w' = MemoryClass.this w
  /\ exists args,
       MemoryClass.issued w' = (MemoryClass.issued w ++ [DbRun c args])%list
       /\ forall e,
            fails_with sqlite (MemoryClass.issued w) (DbRun c args) e ->
            exists msg,
              MemoryClass.console w'
              = (MemoryClass.console w
                   ++ [{| MemoryClass.stream := MemoryClass.Err;
                          MemoryClass.message := msg;
                          MemoryClass.detail := Some e |}])%list.
Proof.
  intros Hdb Hm w'. unfold w'.
  destruct m; try contradiction; simpl;
    unfold MemoryClass.createTable, MemoryClass.insert, MemoryClass.update,
      MemoryClass.delete;
    rewrite Hdb;
    match goal with
    | |- context [MemoryClass.run_and_report sqlite c ?a ?f ?s w] =>
        destruct (memory_run_and_report sqlite c a f s w) as [Hthis Hissued];
        split; [exact Hthis|];
        exists a; split; [exact Hissued|];
        intros e He; exists f;
        apply (memory_run_and_report_failure sqlite c a f s w e He)
    end.
Qed.

Lemma memory_failures_only_logged_witness :
  MemoryClass.this
    (MemoryClass.invoke Samples.locked
       (MemoryClass.MUpdate "t" "a = ?" "id = ?" [VNum (JInt 1); VNum (JInt 2)])
       MoreSamples.memory_opened)
  = MemoryClass.this MoreSamples.memory_opened.
Proof.
  apply (memory_failures_only_logged Samples.locked
           (MemoryClass.MUpdate "t" "a = ?" "id = ?"
              [VNum (JInt 1); VNum (JInt 2)])
           MoreSamples.memory_opened 0%nat eq_refl).
  discriminate.
Defined.

Lemma placeholders_repeat (columns : list string) :
  map (fun _ : string => "?") columns = repeat "?" (List.length columns).
Proof. induction columns; simpl; congruence. Qed.

(** X28.  [insert] writes one placeholder per column and passes the
    values on as they are.  On an open handle the call issued is
    [run("INSERT INTO t (c1, ..., cn) VALUES (?, ..., ?)", values)] with
    as many [?] as there are columns; the values go to the driver as one
    array, whatever their number. *)
Theorem memory_insert_statement sqlite tableName columns values w c :
  MemoryClass.db (MemoryClass.this w) = Some c ->
  MemoryClass.issued (MemoryClass.insert sqlite tableName columns values w)
  = (MemoryClass.issued w
       ++ [DbRun c
             [VStr ("INSERT INTO " ++ tableName ++ " ("
                      ++ String.concat ", " columns ++ ") VALUES ("
                      ++ String.concat ", "
                           (repeat "?" (List.length columns)) ++ ")");
              VArr values]])%list.
Proof.
  intros Hdb. unfold MemoryClass.insert. rewrite Hdb.
  rewrite placeholders_repeat.
  apply memory_run_and_report.
Qed.

Lemma memory_insert_statement_witness :
  MemoryClass.issued
    (MemoryClass.insert Samples.agreeable "t" ["a"; "b"] [VNum (JInt 1)]
       MoreSamples.memory_opened)
  = [NewDatabase ":memory:" VUndefined;
     DbRun 0%nat [VStr "INSERT INTO t (a, b) VALUES (?, ?)";
                  VArr [VNum (JInt 1)]]].
Proof.
  apply (memory_insert_statement Samples.agreeable "t" ["a"; "b"]
           [VNum (JInt 1)] MoreSamples.memory_opened 0%nat eq_refl).
Defined.

(** X29.  [DatabaseMemory.open].  The driver is asked for one
    connection, under the given name or under [:memory:] when none is
    given, and [createSharedMemoryDatabase(name)] asks under
    [file:name?mode=memory&cache=shared].  When the driver succeeds the
    promise resolves with a handle that holds the new connection; when it
    fails the promise rejects with the driver's error, which is also
    written to the error console. *)
Theorem memory_open_connects sqlite databaseName w :
  let name := match databaseName with Some n => n | None => ":memory:" end in
  let call := NewDatabase name VUndefined in
  (succeeds sqlite (MemoryClass.issued w) call ->
   exists w',
     MemoryClass.open sqlite databaseName w = (Fulfilled VDatabase, w')
     /\ MemoryClass.db (MemoryClass.this w')
        = Some (List.length (MemoryClass.issued w))
     /\ MemoryClass.issued w' = (MemoryClass.issued w ++ [call])%list)
  /\ (forall e,
        fails_with sqlite (MemoryClass.issued w) call e ->
        exists w',
          MemoryClass.open sqlite databaseName w = (Rejected e, w')
          /\ MemoryClass.issued w' = (MemoryClass.issued w ++ [call])%list
          /\ MemoryClass.console w'
             = (MemoryClass.console w
                  ++ [{| MemoryClass.stream := MemoryClass.Err;
                         MemoryClass.message :=
                           "Failed to connect to the database " ++ name ++ ":";
                         MemoryClass.detail := Some e |}])%list)
  /\ (forall shared,
        databaseName = Some ("file:" ++ shared ++ "?mode=memory&cache=shared") ->
        MemoryClass.createSharedMemoryDatabase sqlite shared w
        = MemoryClass.open sqlite databaseName w).
Proof.
  intros name call. repeat split.
  - intros (cb & Hcb & Hok).
    unfold MemoryClass.open, MemoryClass.issue. fold name. fold call.
    rewrite Hcb. simpl. rewrite Hok. simpl. eauto.
  - intros e (cb & Hcb & <- & Herr).
    unfold MemoryClass.open, MemoryClass.issue. fold name. fold call.
    rewrite Hcb. simpl. rewrite Herr. simpl. eauto.
  - intros shared ->. reflexivity.
Qed.

Lemma memory_open_connects_witness :
  exists w',
    MemoryClass.open Samples.agreeable None MoreSamples.memory_fresh
    = (Fulfilled VDatabase, w')
    /\ MemoryClass.db (MemoryClass.this w') = Some 0%nat
    /\ MemoryClass.issued w' = [NewDatabase ":memory:" VUndefined].
Proof.
  apply (proj1 (memory_open_connects Samples.agreeable None
                  MoreSamples.memory_fresh)).
  exists Samples.ok. split; reflexivity.
Defined.

(** X30.  [query] of a DatabaseMemory on an open handle issues
    [all(sql, params)], with an empty parameter array when none is given;
    it resolves with the rows of the driver, or rejects with the driver's
    error after writing it to the error console.  The handle is left as
    it is. *)
Theorem memory_query_answers sqlite sql params w c :
  let ps := match params with Some ps => ps | None => [] end in
  let call := DbAll c [VStr sql; VArr ps] in
  MemoryClass.db (MemoryClass.this w) = Some c ->
  (forall cb,
     respond sqlite (MemoryClass.issued w) call = [cb] ->
     truthy (cb_err cb) = false ->
     MemoryClass.query sqlite sql params w
     = (Fulfilled (cb_arg cb),
        {| MemoryClass.this := MemoryClass.this w;
           MemoryClass.issued := MemoryClass.issued w ++ [call];
           MemoryClass.console := MemoryClass.console w |}))
  /\ (forall e,
        fails_with sqlite (MemoryClass.issued w) call e ->
        MemoryClass.query sqlite sql params w
        = (Rejected e,
           {| MemoryClass.this := MemoryClass.this w;
              MemoryClass.issued := MemoryClass.issued w ++ [call];
              MemoryClass.console :=
                MemoryClass.console w
                ++ [{| MemoryClass.stream := MemoryClass.Err;
                       MemoryClass.message := "Failed to query data:";
                       MemoryClass.detail := Some e |}] |})).
Proof.
  intros ps call Hdb. split.
  - intros cb Hcb Hok.
    unfold MemoryClass.query, MemoryClass.issue. rewrite Hdb.
    fold ps. fold call. rewrite Hcb. simpl. rewrite Hok. reflexivity.
  - intros e (cb & Hcb & <- & Herr).
    unfold MemoryClass.query, MemoryClass.issue. rewrite Hdb.
    fold ps. fold call. rewrite Hcb. simpl. rewrite Herr. reflexivity.
Qed.

Lemma memory_query_answers_witness :
  MemoryClass.query Samples.locked "SELECT * FROM t" None
    MoreSamples.memory_opened
  = (Rejected Samples.busy,
     {| MemoryClass.this := MemoryClass.this MoreSamples.memory_opened;
        MemoryClass.issued :=
          MemoryClass.issued MoreSamples.memory_opened
          ++ [DbAll 0%nat [VStr "SELECT * FROM t"; VArr []]];
        MemoryClass.console :=
          MemoryClass.console MoreSamples.memory_opened
          ++ [{| MemoryClass.stream := MemoryClass.Err;
                 MemoryClass.message := "Failed to query data:";
                 MemoryClass.detail := Some Samples.busy |}] |}).
Proof.
  apply (proj2 (memory_query_answers Samples.locked "SELECT * FROM t" None
                  MoreSamples.memory_opened 0%nat eq_refl) Samples.busy).
  exists (Samples.failing Samples.busy). repeat split; reflexivity.
Defined.
